(** * The NFS volume driver and the error kinds of openstorage

    A shallow embedding of [drivers/nfs/nfs.go] and of the [errors]
    package, followed by the properties of the driver that the
    specification states.

    Conventions of the embedding:
    - a Go [error] result is an [option error], [None] being [nil];
    - a Go pointer that may be [nil] is an [option];
    - a Go slice is an [option (list _)], [None] being the [nil] slice;
    - a driver method is a computation in the monad [M] which threads the
      state of the world (the key-value store, the host, and the log of the
      calls made to both) and which yields [None] when the Go code panics. *)

From Stdlib Require Import ZArith String Ascii List Lia.
From stdpp Require Import base strings gmap list option.

Local Open Scope Z_scope.

(* ===================================================================== *)
(** ** Go's [strings] and [fmt] as far as the sources use them           *)
(* ===================================================================== *)

Module GoStrings.

(** The string literal of one line feed. *)
Definition LF : string := String (ascii_of_nat 10) EmptyString.

(** [strings.HasSuffix(s, suffix)]. *)
Definition HasSuffix (s suffix : string) : bool :=
  let n := String.length s in
  let k := String.length suffix in
  (k <=? n)%nat && String.eqb (substring (n - k) k s) suffix.

(** [strings.TrimSuffix(s, suffix)]: [s] without the trailing [suffix],
    or [s] itself when it does not end with [suffix]. *)
Definition TrimSuffix (s suffix : string) : string :=
  if HasSuffix s suffix
  then substring 0 (String.length s - String.length suffix) s
  else s.

(** [sub] occurs in [s] as a contiguous run of characters. *)
Definition Contains (s sub : string) : Prop :=
  exists pre post : string, s = pre +:+ sub +:+ post.

(** The character [c] occurs in [s]. *)
Fixpoint ContainsRune (s : string) (c : ascii) : bool :=
  match s with
  | EmptyString => false
  | String a s' => Ascii.eqb a c || ContainsRune s' c
  end.

End GoStrings.

(* ===================================================================== *)
(** ** Package [api]: the types the two sources use                      *)
(* ===================================================================== *)

Module api.

(** Modelled from the spec: [api.VolumeSpec] is declared in package [api],
    which is not among the sources.  The spec describes it as the
    requested size, the desired filesystem format and a backend-specific
    option bag; the driver reads [Format] only and copies the rest. *)
Record VolumeSpec := {
  Size : Z;
  Format : string;
  Options : list (string * string)
}.

(** The zero value of [VolumeSpec]. *)
Definition VolumeSpec_zero : VolumeSpec :=
  {| Size := 0; Format := ""; Options := [] |}.

(** Modelled from the spec: [api.VolumeLocator], a user-facing name and a
    set of string labels. *)
Record VolumeLocator := {
  Name : string;
  VolumeLabels : list (string * string)
}.

(** Modelled from the spec: [api.Labels], string labels as key/value pairs,
    and the opaque identifiers [api.VolumeID] and [api.SnapID], which the
    driver converts to and from [string]. *)
Definition Labels := list (string * string).
Definition VolumeID := string.
Definition SnapID := string.

(** Modelled from the spec: [api.StoragePoolOperation], the last operation
    recorded on a pool: its kind, its progress message and its
    parameters. *)
Record StoragePoolOperation := {
  Type_ : Z;
  Msg : string;
  Params : string
}.

(** Modelled from the spec: [api.StoragePool], of which the error message
    reads the identifier and the last operation (a pointer). *)
Record StoragePool := {
  Uuid : string;
  LastOperation : option StoragePoolOperation
}.

(** Modelled from the spec: the getter [GetUuid] of a [StoragePool]
    pointer (package [api]), which yields the pool's identifier; like any
    generated getter it accepts a [nil] receiver and then yields the empty
    string. *)
Definition GetUuid (p : option StoragePool) : string :=
  match p with
  | Some p => Uuid p
  | None => ""
  end.

End api.

(* ===================================================================== *)
(** ** Package [errors]                                                  *)
(* ===================================================================== *)

Module errors.

(** [ErrNotFound]: error type for objects not found. *)
Record ErrNotFound := { NotFound_ID : string; NotFound_Type : string }.

Definition ErrNotFound_Error (e : ErrNotFound) : string :=
  NotFound_Type e +:+ " with ID: " +:+ NotFound_ID e +:+ " not found".

(** [ErrExists]: type for objects already present. *)
Record ErrExists := { Exists_ID : string; Exists_Type : string }.

Definition ErrExists_Error (e : ErrExists) : string :=
  Exists_Type e +:+ " with ID: " +:+ Exists_ID e +:+ " already exists".

(** [ErrNotSupported]: [struct{}], a type with one value. *)
Inductive ErrNotSupported := mkErrNotSupported.

Definition ErrNotSupported_Error (e : ErrNotSupported) : string :=
  "Not Supported".

(** [ErrStoragePoolResizeInProgress]: its only field is a pointer to the
    affected pool. *)
Record ErrStoragePoolResizeInProgress := { Pool : option api.StoragePool }.

Section Error.

(** The constant [api.SdkStoragePool_OPERATION_RESIZE] is declared in
    package [api]; its numeric value is left open. *)
Variable SdkStoragePool_OPERATION_RESIZE : Z.

(** The method [Error] of [ErrStoragePoolResizeInProgress].  [None] is the run-time
    panic of [e.Pool.LastOperation] on a [nil] pool, which comes after
    the nil-safe [GetUuid]. *)
Definition ErrStoragePoolResizeInProgress_Error
    (e : ErrStoragePoolResizeInProgress) : option string :=
  let errMsg :=
    "a resize for pool: " +:+ api.GetUuid (Pool e) +:+
    " is already in progress." in
  match Pool e with
  | None => None
  | Some pool =>
      match api.LastOperation pool with
      | Some op =>
          if Z.eqb (api.Type_ op) SdkStoragePool_OPERATION_RESIZE
          then Some (errMsg +:+ " " +:+ api.Msg op +:+ " " +:+ api.Params op)
          else Some errMsg
      | None => Some errMsg
      end
  end.

End Error.

End errors.

(* ===================================================================== *)
(** ** Error values                                                      *)
(* ===================================================================== *)

(** An error number of the operating system ([syscall.Errno]). *)
Definition Errno := Z.

(** The values of Go's [error] interface that reach the driver's callers,
    by where they are made: the four kinds of package [errors], the
    key-value store's own two (its error for a missing key, and any other
    failure of the store), the operating system's, the failure of an
    external command, and a plain [errors.New] message. *)
Inductive error :=
| Err_NotFound (e : errors.ErrNotFound)
| Err_Exists (e : errors.ErrExists)
| Err_NotSupported (e : errors.ErrNotSupported)
| Err_StoragePoolResizeInProgress (e : errors.ErrStoragePoolResizeInProgress)
| kvdb_ErrNotFound
| kvdb_Err (msg : string)
| os_Err (errno : Errno)
| exec_Err (msg : string)
| errors_New (msg : string).

(** Modelled from the spec: the variable [volume.ErrNotSupported] is declared
    in package [volume], which is not among the sources.  The spec names it
    the single uniform [NotSupported] error of the taxonomy, which carries
    no fields: the one value of [errors.ErrNotSupported]. *)
Definition volume_ErrNotSupported : error :=
  Err_NotSupported errors.mkErrNotSupported.

(* ===================================================================== *)
(** ** Package [nfs]                                                     *)
(* ===================================================================== *)

Module nfs.

Definition Name : string := "nfs".
Definition NfsDBKey : string := "OpenStorageNFSKey".

(** This data is persisted in a DB. *)
Record awsVolume := {
  spec : api.VolumeSpec;
  formatted : bool;
  attached : bool;
  mounted : bool;
  device : string;
  mountpath : string
}.

(** [awsVolume{}]. *)
Definition awsVolume_zero : awsVolume :=
  {| spec := api.VolumeSpec_zero; formatted := false; attached := false;
     mounted := false; device := ""; mountpath := "" |}.

(** The assignments [v.mountpath = p] and [v.mounted = b]. *)
Definition set_mountpath (p : string) (v : awsVolume) : awsVolume :=
  {| spec := spec v; formatted := formatted v; attached := attached v;
     mounted := mounted v; device := device v; mountpath := p |}.

Definition set_mounted (b : bool) (v : awsVolume) : awsVolume :=
  {| spec := spec v; formatted := formatted v; attached := attached v;
     mounted := b; device := device v; mountpath := mountpath v |}.

(** Implements the open storage volume interface.  The field [db] is the
    process-wide store [kvdb.Instance()], which lives in the world. *)
Record nfsDriver := {
  nfsServer : string;
  mntPath : string
}.

(** *** The world outside the driver *)

(** The calls the driver makes to the host and to the store, logged in
    the order they are made. *)
Inductive Call :=
| ExecUuidgen
| OsMkdirAll (path : string) (perm : Z)
| OsRemove (path : string)
| SyscallMount (source target fstype : string) (flags : Z) (data : string)
| SyscallUnmount (target : string) (flags : Z)
| KvGetVal (key : string)
| KvPut (key : string) (v : awsVolume) (ttl : Z)
| KvDelete (key : string).

(** The host: what the operating system and the connection to the store
    answer, as functions of a host state [Env] the driver cannot see.
    Nothing is assumed about the answers. *)
Class Host (Env : Type) := {
  (** [exec.Command("uuidgen").Output()]: the output and the error. *)
  exec_uuidgen : Env -> (string * option string) * Env;
  (** [os.MkdirAll(path, perm)]. *)
  os_MkdirAll : string -> Z -> Env -> option Errno * Env;
  (** [os.Remove(path)]. *)
  os_Remove : string -> Env -> option Errno * Env;
  (** [syscall.Mount(source, target, fstype, flags, data)]. *)
  syscall_Mount :
    string -> string -> string -> Z -> string -> Env -> option Errno * Env;
  (** [syscall.Unmount(target, flags)]. *)
  syscall_Unmount : string -> Z -> Env -> option Errno * Env;
  (** Whether the store fails to serve the next request (it is
      unreachable, say), and with which message. *)
  kvdb_fault : Env -> option string * Env
}.

Section Driver.

Context {Env : Type} {host : Host Env}.

(** The state of the world: the contents of the key-value store, the
    state of the host, and the log of the calls made so far. *)
Record World := {
  db : gmap string awsVolume;
  env : Env;
  trace : list Call
}.

(** Computations over the world; [None] is a panic. *)
Definition M (A : Type) : Type := World -> option (A * World).

#[export] Instance M_ret : MRet M := fun A a w => Some (a, w).

#[export] Instance M_bind : MBind M := fun A B k m w =>
  match m w with
  | Some (a, w') => k a w'
  | None => None
  end.

Definition panic {A : Type} : M A := fun _ => None.

(** A call to the host: it is logged, and the host state moves on. *)
Definition call {A : Type} (c : Call) (f : Env -> A * Env) : M A :=
  fun w =>
    let '(a, e) := f (env w) in
    Some (a, {| db := db w; env := e; trace := trace w ++ [c] |}).

(** *** The key-value store

    Package [kvdb] is not among the sources.  The spec gives its
    contract: [get(key) -> (value, error)], [put(key, value, ttl) ->
    error], [delete(key) -> error], atomic per key, a missing key being
    an error of its own kind, distinct from the store being unreachable.
    The store holds the records it was given, as they were given. *)

(** Modelled from the spec: [db.GetVal(key, v)] of package [kvdb], the
    store's [get].  It fills [v] with the value at [key]; when the store
    cannot be reached or holds nothing at [key], [v] is left as it was and
    the error says which. *)
Definition kvdb_GetVal (key : string) (v : awsVolume)
  : M (awsVolume * option error) :=
  f ← call (KvGetVal key) kvdb_fault;
  match f with
  | Some msg => mret (v, Some (kvdb_Err msg))
  | None => fun w =>
      match db w !! key with
      | Some r => Some ((r, None), w)
      | None => Some ((v, Some kvdb_ErrNotFound), w)
      end
  end.

(** Modelled from the spec: [db.Put(key, v, ttl)] of package [kvdb], the
    store's [put]; a [ttl] of 0 means no expiry. *)
Definition kvdb_Put (key : string) (v : awsVolume) (ttl : Z)
  : M (option error) :=
  f ← call (KvPut key v ttl) kvdb_fault;
  match f with
  | Some msg => mret (Some (kvdb_Err msg))
  | None => fun w =>
      Some (None, {| db := <[key := v]> (db w); env := env w;
                     trace := trace w |})
  end.

(** Modelled from the spec: [db.Delete(key)] of package [kvdb], the store's
    [delete]. *)
Definition kvdb_Delete (key : string) : M (option error) :=
  f ← call (KvDelete key) kvdb_fault;
  match f with
  | Some msg => mret (Some (kvdb_Err msg))
  | None => fun w =>
      match db w !! key with
      | Some _ =>
          Some (None, {| db := delete key (db w); env := env w;
                         trace := trace w |})
      | None => Some (Some kvdb_ErrNotFound, w)
      end
  end.

(** *** The state-store adapter of the driver *)

Definition get (d : nfsDriver) (volumeID : string)
  : M (awsVolume * option error) :=
  let v := awsVolume_zero in
  let key := NfsDBKey +:+ "/" +:+ volumeID in
  kvdb_GetVal key v.

Definition put (d : nfsDriver) (volumeID : string) (v : awsVolume)
  : M (option error) :=
  let key := NfsDBKey +:+ "/" +:+ volumeID in
  kvdb_Put key v 0.

(** [del] drops the store's answer. *)
Definition del (d : nfsDriver) (volumeID : string) : M unit :=
  let key := NfsDBKey +:+ "/" +:+ volumeID in
  _ ← kvdb_Delete key;
  mret tt.

(** The method [String] of the driver. *)
Definition String_ (d : nfsDriver) : string := Name.

(** *** The driver's operations *)

(** [Init(params)]: [params] is a [map[string]string]. *)
Definition Init (params : gmap string string)
  : M (option nfsDriver * option error) :=
  match params !! "uri" with
  | None => mret (None, Some (errors_New "No NFS server URI provided"))
  | Some uri =>
      '(out, err) ← call ExecUuidgen exec_uuidgen;
      match err with
      | Some e => mret (None, Some (exec_Err e))
      | None =>
          let uuid := out in
          let uuid := GoStrings.TrimSuffix uuid GoStrings.LF in
          let inst := {| mntPath := "/mnt/" +:+ uuid; nfsServer := uri |} in
          err ← call (OsMkdirAll (mntPath inst) 484)
                     (os_MkdirAll (mntPath inst) 484);
          match err with
          | Some e => mret (None, Some (os_Err e))
          | None =>
              err ← call (SyscallMount (nfsServer inst) (mntPath inst)
                            "tmpfs" 0 "mode=0700,uid=65534")
                         (syscall_Mount (nfsServer inst) (mntPath inst)
                            "tmpfs" 0 "mode=0700,uid=65534");
              match err with
              | Some e =>
                  _ ← call (OsRemove (mntPath inst))
                           (os_Remove (mntPath inst));
                  mret (None, Some (os_Err e))
              | None => mret (Some inst, None)
              end
          end
      end
  end.

(** [Create(l, opt, spec)]: [opt] and [spec] are pointers; [opt] is
    never read, and [*spec] panics on [nil]. *)
Definition Create {CreateOptions : Type} (d : nfsDriver)
    (l : api.VolumeLocator) (opt : option CreateOptions)
    (spec : option api.VolumeSpec) : M (api.VolumeID * option error) :=
  '(out, err) ← call ExecUuidgen exec_uuidgen;
  match err with
  | Some e => mret ("", Some (exec_Err e))
  | None =>
      let volumeID := out in
      let volumeID := GoStrings.TrimSuffix volumeID GoStrings.LF in
      err ← call (OsMkdirAll (mntPath d +:+ volumeID) 484)
                 (os_MkdirAll (mntPath d +:+ volumeID) 484);
      match err with
      | Some e => mret ("", Some (os_Err e))
      | None =>
          match spec with
          | None => panic
          | Some s =>
              err ← put d volumeID
                    {| device := mntPath d +:+ volumeID; spec := s;
                       formatted := false; attached := false;
                       mounted := false; mountpath := "" |};
              mret (volumeID, err)
          end
      end
  end.

Definition Inspect {Volume : Type} (d : nfsDriver)
    (volumeIDs : option (list api.VolumeID))
  : M (option (list Volume) * option error) :=
  mret (None, None).

Definition Delete (d : nfsDriver) (volumeID : api.VolumeID)
  : M (option error) :=
  '(v, err) ← get d volumeID;
  match err with
  | Some e => mret (Some e)
  | None =>
      err ← call (OsRemove (device v)) (os_Remove (device v));
      match err with
      | Some e => mret (Some (os_Err e))
      | None =>
          _ ← del d volumeID;
          mret None
      end
  end.

Definition Snapshot (d : nfsDriver) (volumeID : api.VolumeID)
    (labels : api.Labels) : M (api.SnapID * option error) :=
  mret ("", Some volume_ErrNotSupported).

Definition SnapDelete (d : nfsDriver) (snapID : api.SnapID)
  : M (option error) :=
  mret (Some volume_ErrNotSupported).

Definition SnapInspect {VolumeSnap : Type} (d : nfsDriver)
    (snapID : option (list api.SnapID))
  : M (option (list VolumeSnap) * option error) :=
  mret (Some [], Some volume_ErrNotSupported).

(** [Stats] and [Alerts] return the zero value of a type of package
    [api], passed here as [zero]. *)
Definition Stats {VolumeStats : Type} (zero : VolumeStats) (d : nfsDriver)
    (volumeID : api.VolumeID) : M (VolumeStats * option error) :=
  mret (zero, Some volume_ErrNotSupported).

Definition Alerts {VolumeAlerts : Type} (zero : VolumeAlerts) (d : nfsDriver)
    (volumeID : api.VolumeID) : M (VolumeAlerts * option error) :=
  mret (zero, Some volume_ErrNotSupported).

Definition Enumerate {Volume : Type} (d : nfsDriver)
    (locator : api.VolumeLocator) (labels : api.Labels)
  : M (option (list Volume) * option error) :=
  mret (Some [], Some volume_ErrNotSupported).

Definition SnapEnumerate {VolumeSnap : Type} (d : nfsDriver)
    (locator : api.VolumeLocator) (labels : api.Labels)
  : M (option (list VolumeSnap) * option error) :=
  mret (None, Some volume_ErrNotSupported).

Definition Mount (d : nfsDriver) (volumeID : api.VolumeID)
    (mountpath : string) : M (option error) :=
  '(v, err) ← get d volumeID;
  match err with
  | Some e => mret (Some e)
  | None =>
      err ← call (SyscallMount (device v) mountpath
                    (api.Format (spec v)) 0 "")
                 (syscall_Mount (device v) mountpath
                    (api.Format (spec v)) 0 "");
      match err with
      | Some e => mret (Some (os_Err e))
      | None =>
          let v := set_mountpath mountpath v in
          let v := set_mounted true v in
          put d volumeID v
      end
  end.

Definition Unmount (d : nfsDriver) (volumeID : api.VolumeID)
    (mountpath : string) : M (option error) :=
  '(v, err) ← get d volumeID;
  match err with
  | Some e => mret (Some e)
  | None =>
      err ← call (SyscallUnmount (nfs.mountpath v) 0)
                 (syscall_Unmount (nfs.mountpath v) 0);
      match err with
      | Some e => mret (Some (os_Err e))
      | None =>
          let v := set_mountpath "" v in
          let v := set_mounted false v in
          put d volumeID v
      end
  end.

(** [Shutdown] only writes to the log of the process. *)
Definition Shutdown (d : nfsDriver) : M unit := mret tt.

End Driver.

Arguments World : clear implicits.
Arguments M : clear implicits.

End nfs.

(* ===================================================================== *)
(** ** A small host, to run the driver on                                *)
(* ===================================================================== *)

Module sim.

Import nfs.

Definition ENOENT : Errno := 2.
Definition EINVAL : Errno := 22.

(** A host with a set of directories, a mount table (target, source), a
    supply of identifiers for [uuidgen], and a store that is up or down. *)
Record SimEnv := {
  dirs : list string;
  mounts : list (string * string);
  uuids : list string;
  store_up : bool
}.

Definition mem (p : string) (l : list string) : bool :=
  existsb (String.eqb p) l.

Definition sim_uuidgen (e : SimEnv) : (string * option string) * SimEnv :=
  match uuids e with
  | u :: us =>
      ((u +:+ GoStrings.LF, None),
       {| dirs := dirs e; mounts := mounts e; uuids := us;
          store_up := store_up e |})
  | [] => (("", Some "exit status 1"), e)
  end.

(** Creating a directory always succeeds. *)
Definition sim_MkdirAll (path : string) (perm : Z) (e : SimEnv)
  : option Errno * SimEnv :=
  (None,
   {| dirs := if mem path (dirs e) then dirs e else path :: dirs e;
      mounts := mounts e; uuids := uuids e; store_up := store_up e |}).

(** Removing a path that does not exist fails with [ENOENT]. *)
Definition sim_Remove (path : string) (e : SimEnv) : option Errno * SimEnv :=
  if mem path (dirs e)
  then (None,
        {| dirs := List.filter (fun q => negb (String.eqb path q)) (dirs e);
           mounts := mounts e; uuids := uuids e; store_up := store_up e |})
  else (Some ENOENT, e).

(** Mounting needs the target directory to exist. *)
Definition sim_Mount (source target fstype : string) (flags : Z)
    (data : string) (e : SimEnv) : option Errno * SimEnv :=
  if mem target (dirs e)
  then (None,
        {| dirs := dirs e; mounts := (target, source) :: mounts e;
           uuids := uuids e; store_up := store_up e |})
  else (Some ENOENT, e).

(** Unmounting a path that is not a mount point fails with [EINVAL]. *)
Definition sim_Unmount (target : string) (flags : Z) (e : SimEnv)
  : option Errno * SimEnv :=
  if mem target (List.map fst (mounts e))
  then (None,
        {| dirs := dirs e;
           mounts :=
             List.filter (fun m => negb (String.eqb target (fst m)))
                         (mounts e);
           uuids := uuids e; store_up := store_up e |})
  else (Some EINVAL, e).

Definition sim_fault (e : SimEnv) : option string * SimEnv :=
  if store_up e then (None, e) else (Some "store unreachable", e).

#[export] Instance sim_host : Host SimEnv := {
  exec_uuidgen := sim_uuidgen;
  os_MkdirAll := sim_MkdirAll;
  os_Remove := sim_Remove;
  syscall_Mount := sim_Mount;
  syscall_Unmount := sim_Unmount;
  kvdb_fault := sim_fault
}.

(** *** A run of the driver: Init, Create, Mount, Unmount *)

(** An empty store on a host where [/mnt/x] exists. *)
Definition env0 : SimEnv :=
  {| dirs := ["/mnt/x"]; mounts := []; uuids := ["host"; "vol1"];
     store_up := true |}.

Definition w0 : World SimEnv := {| db := ∅; env := env0; trace := [] |}.

Definition params0 : gmap string string := {[ "uri" := "server:/export" ]}.

(** The driver that [Init] builds from [w0]. *)
Definition d0 : nfsDriver :=
  {| nfsServer := "server:/export"; mntPath := "/mnt/host" |}.

Definition trace_init : list Call :=
  [ExecUuidgen; OsMkdirAll "/mnt/host" 484;
   SyscallMount "server:/export" "/mnt/host" "tmpfs" 0 "mode=0700,uid=65534"].

(** The world after [Init]. *)
Definition w_init : World SimEnv :=
  {| db := ∅;
     env := {| dirs := ["/mnt/host"; "/mnt/x"];
               mounts := [("/mnt/host", "server:/export")];
               uuids := ["vol1"]; store_up := true |};
     trace := trace_init |}.

Definition spec0 : api.VolumeSpec :=
  {| api.Size := 10737418240; api.Format := "ext4"; api.Options := [] |}.

Definition l0 : api.VolumeLocator :=
  {| api.Name := "v1"; api.VolumeLabels := [] |}.

(** The key of volume [vol1], and its record as [Create] writes it. *)
Definition key1 : string := "OpenStorageNFSKey/vol1".

Definition rec1 : awsVolume :=
  {| spec := spec0; formatted := false; attached := false;
     mounted := false; device := "/mnt/hostvol1"; mountpath := "" |}.

Definition env1 : SimEnv :=
  {| dirs := ["/mnt/hostvol1"; "/mnt/host"; "/mnt/x"];
     mounts := [("/mnt/host", "server:/export")]; uuids := [];
     store_up := true |}.

Definition trace1 : list Call :=
  trace_init ++
  [ExecUuidgen; OsMkdirAll "/mnt/hostvol1" 484; KvPut key1 rec1 0].

(** The world after [Create]. *)
Definition w1 : World SimEnv :=
  {| db := {[ key1 := rec1 ]}; env := env1; trace := trace1 |}.

(** The record of [vol1] once mounted at [/mnt/x]. *)
Definition rec2 : awsVolume :=
  {| spec := spec0; formatted := false; attached := false;
     mounted := true; device := "/mnt/hostvol1"; mountpath := "/mnt/x" |}.

Definition trace2 : list Call :=
  trace1 ++
  [KvGetVal key1; SyscallMount "/mnt/hostvol1" "/mnt/x" "ext4" 0 "";
   KvPut key1 rec2 0].

(** The world after [Mount] at [/mnt/x]. *)
Definition w2 : World SimEnv :=
  {| db := {[ key1 := rec2 ]};
     env := {| dirs := ["/mnt/hostvol1"; "/mnt/host"; "/mnt/x"];
               mounts := [("/mnt/x", "/mnt/hostvol1");
                          ("/mnt/host", "server:/export")];
               uuids := []; store_up := true |};
     trace := trace2 |}.

(** The world after [Unmount]. *)
Definition w3 : World SimEnv :=
  {| db := {[ key1 := rec1 ]}; env := env1;
     trace := trace2 ++
              [KvGetVal key1; SyscallUnmount "/mnt/x" 0; KvPut key1 rec1 0] |}.

(** The world after a [Mount] of [vol1] at [/mnt/y], which does not
    exist. *)
Definition w1_refused : World SimEnv :=
  {| db := {[ key1 := rec1 ]}; env := env1;
     trace := trace1 ++
              [KvGetVal key1;
               SyscallMount "/mnt/hostvol1" "/mnt/y" "ext4" 0 ""] |}.

(** *** A Delete cut short

    The first two steps of [Delete]: the lookup and the removal of the
    directory.  A crash right after them leaves the world [w_crashed]:
    the directory of [vol1] is gone, its record is still stored. *)
Definition Delete_until_crash (d : nfsDriver) (volumeID : api.VolumeID)
  : M SimEnv (option Errno) :=
  '(v, _) ← get d volumeID;
  call (OsRemove (device v)) (os_Remove (device v)).

Definition trace_crashed : list Call :=
  trace1 ++ [KvGetVal key1; OsRemove "/mnt/hostvol1"].

Definition w_crashed : World SimEnv :=
  {| db := {[ key1 := rec1 ]};
     env := {| dirs := ["/mnt/host"; "/mnt/x"];
               mounts := [("/mnt/host", "server:/export")]; uuids := [];
               store_up := true |};
     trace := trace_crashed |}.

(** The world after [Delete] is tried again from [w_crashed]. *)
Definition w_retried : World SimEnv :=
  {| db := {[ key1 := rec1 ]}; env := env w_crashed;
     trace := trace_crashed ++ [KvGetVal key1; OsRemove "/mnt/hostvol1"] |}.

(** The world [w_init] once [uuidgen] has printed [vol1]. *)
Definition w1_uuid : World SimEnv :=
  {| db := ∅;
     env := {| dirs := ["/mnt/host"; "/mnt/x"];
               mounts := [("/mnt/host", "server:/export")];
               uuids := []; store_up := true |};
     trace := trace_init ++ [ExecUuidgen] |}.

(** The world [w] once the store has served a lookup of [vol1]. *)
Definition after_get (w : World SimEnv) : World SimEnv :=
  {| db := db w; env := env w; trace := trace w ++ [KvGetVal key1] |}.

End sim.

(* ===================================================================== *)
(** ** A scripted host, to run the failure paths                         *)
(* ===================================================================== *)

Module script.

Import nfs.

Definition EIO : Errno := 5.

(** One answer of the host: to [uuidgen], to a call of the operating
    system, or to a request sent to the store. *)
Inductive Answer :=
| Uuidgen (out : string) (err : option string)
| Os (r : option Errno)
| Store (fault : option string).

(** The state of the host is the list of the answers it has yet to give. *)
Definition script_uuidgen (e : list Answer)
  : (string * option string) * list Answer :=
  match e with
  | Uuidgen out err :: rest => ((out, err), rest)
  | _ :: rest => (("", Some "unexpected call"), rest)
  | [] => (("", Some "end of script"), [])
  end.

Definition script_os (e : list Answer) : option Errno * list Answer :=
  match e with
  | Os r :: rest => (r, rest)
  | _ :: rest => (Some EIO, rest)
  | [] => (Some EIO, [])
  end.

Definition script_fault (e : list Answer) : option string * list Answer :=
  match e with
  | Store f :: rest => (f, rest)
  | _ :: rest => (Some "unexpected request", rest)
  | [] => (Some "end of script", [])
  end.

#[export] Instance script_host : Host (list Answer) := {
  exec_uuidgen := script_uuidgen;
  os_MkdirAll := fun _ _ => script_os;
  os_Remove := fun _ => script_os;
  syscall_Mount := fun _ _ _ _ _ => script_os;
  syscall_Unmount := fun _ _ => script_os;
  kvdb_fault := script_fault
}.

(** A store that holds the record [sim.rec1] of [vol1], on a host that
    will answer as [answers] says. *)
Definition scripted (answers : list Answer) : World (list Answer) :=
  {| db := {[ sim.key1 := sim.rec1 ]}; env := answers; trace := [] |}.

(** The same, with the record of [vol1] mounted at [/mnt/x]. *)
Definition scripted_mounted (answers : list Answer) : World (list Answer) :=
  {| db := {[ sim.key1 := sim.rec2 ]}; env := answers; trace := [] |}.

(** An empty store. *)
Definition scripted_empty (answers : list Answer) : World (list Answer) :=
  {| db := ∅; env := answers; trace := [] |}.

End script.

(* ===================================================================== *)
(** * Properties                                                         *)
(* ===================================================================== *)

(** ** Strings *)

Module GoStringsFacts.

Import GoStrings.

Lemma append_nil_l (s : string) : "" +:+ s = s.
Proof. reflexivity. Qed.

Lemma append_cons (x : ascii) (a b : string) :
  String x a +:+ b = String x (a +:+ b).
Proof. reflexivity. Qed.

Lemma append_nil_r (s : string) : s +:+ "" = s.
Proof.
  induction s as [|x s IH]; [reflexivity|]. now rewrite append_cons, IH.
Qed.

Lemma append_assoc (a b c : string) : (a +:+ b) +:+ c = a +:+ b +:+ c.
Proof.
  induction a as [|x a IH]; [reflexivity|]. now rewrite !append_cons, IH.
Qed.

Lemma length_append (a b : string) :
  String.length (a +:+ b) = (String.length a + String.length b)%nat.
Proof.
  induction a as [|x a IH]; [reflexivity|].
  rewrite append_cons. simpl. now rewrite IH.
Qed.

(** Appending the same tail to two strings keeps them apart. *)
Lemma append_inv_tail (a b t : string) : a +:+ t = b +:+ t -> a = b.
Proof.
  revert b. induction a as [|x a IH]; intros [|y b] H.
  - reflexivity.
  - apply (f_equal String.length) in H.
    rewrite append_nil_l, length_append in H. simpl in H. lia.
  - apply (f_equal String.length) in H.
    rewrite append_nil_l, length_append in H. simpl in H. lia.
  - rewrite !append_cons in H. injection H as -> H. f_equal. now apply IH.
Qed.

Lemma Contains_refl (s : string) : Contains s s.
Proof. exists "", "". now rewrite append_nil_l, append_nil_r. Qed.

Lemma Contains_middle (pre sub post : string) :
  Contains (pre +:+ sub +:+ post) sub.
Proof. now exists pre, post. Qed.

Lemma Contains_end (pre sub : string) : Contains (pre +:+ sub) sub.
Proof. exists pre, "". now rewrite append_nil_r. Qed.

Lemma Contains_append_l (s t sub : string) :
  Contains s sub -> Contains (s +:+ t) sub.
Proof.
  intros (pre & post & ->). exists pre, (post +:+ t).
  now rewrite !append_assoc.
Qed.

(** Two keys [p +:+ sep +:+ x] whose prefixes are free of the separator
    character agree only when the prefixes do. *)
Lemma separated_prefix_inj (c : ascii) (p q x y : string) :
  ContainsRune p c = false -> ContainsRune q c = false ->
  p +:+ String c x = q +:+ String c y -> p = q /\ x = y.
Proof.
  revert q. induction p as [|a p IH]; intros [|b q] Hp Hq H;
    rewrite ?append_cons, ?append_nil_l in H; simpl in Hp, Hq.
  - injection H as ->. split; reflexivity.
  - injection H as <- _. rewrite Ascii.eqb_refl in Hq. discriminate.
  - injection H as -> _. rewrite Ascii.eqb_refl in Hp. discriminate.
  - injection H as -> H.
    apply orb_false_iff in Hp as [_ Hp]. apply orb_false_iff in Hq as [_ Hq].
    destruct (IH q Hp Hq H) as [-> ->]. split; reflexivity.
Qed.

(** [TrimSuffix] removes a suffix that is there, once, and leaves other
    strings alone. *)
Lemma substring_all (t : string) : substring 0 (String.length t) t = t.
Proof. induction t as [|x t IH]; simpl; [reflexivity | now rewrite IH]. Qed.

Lemma substring_head (s t : string) :
  substring 0 (String.length s) (s +:+ t) = s.
Proof.
  induction s as [|x s IH]; [now destruct t|].
  rewrite append_cons. simpl. now rewrite IH.
Qed.

Lemma substring_tail (s t : string) :
  substring (String.length s) (String.length t) (s +:+ t) = t.
Proof.
  induction s as [|x s IH]; [apply substring_all|].
  rewrite append_cons. simpl. exact IH.
Qed.

Lemma HasSuffix_append (s suffix : string) :
  HasSuffix (s +:+ suffix) suffix = true.
Proof.
  unfold HasSuffix. rewrite length_append.
  replace (String.length s + String.length suffix - String.length suffix)%nat
    with (String.length s) by lia.
  rewrite substring_tail, String.eqb_refl, andb_true_r.
  apply Nat.leb_le. lia.
Qed.

Lemma TrimSuffix_append (s suffix : string) :
  TrimSuffix (s +:+ suffix) suffix = s.
Proof.
  unfold TrimSuffix. rewrite HasSuffix_append, length_append.
  replace (String.length s + String.length suffix - String.length suffix)%nat
    with (String.length s) by lia.
  apply substring_head.
Qed.

Lemma TrimSuffix_other (s suffix : string) :
  HasSuffix s suffix = false -> TrimSuffix s suffix = s.
Proof. unfold TrimSuffix. now intros ->. Qed.

End GoStringsFacts.

(** ** The error kinds *)

Module errorsFacts.

Import GoStrings GoStringsFacts errors.

(** The message of a [NotFound] names the kind and the identifier. *)
Lemma ErrNotFound_Error_contains (e : ErrNotFound) :
  Contains (ErrNotFound_Error e) (NotFound_Type e) /\
  Contains (ErrNotFound_Error e) (NotFound_ID e).
Proof.
  unfold ErrNotFound_Error. split.
  - exists "", (" with ID: " +:+ NotFound_ID e +:+ " not found").
    now rewrite append_nil_l.
  - exists (NotFound_Type e +:+ " with ID: "), " not found".
    now rewrite append_assoc.
Qed.

(** A [nil] pool makes [Error] panic. *)
Lemma ErrStoragePoolResizeInProgress_Error_nil (k : Z) :
  ErrStoragePoolResizeInProgress_Error k {| Pool := None |} = None.
Proof. reflexivity. Qed.

(** Without a last operation, or with one of another kind, the message
    ends after the pool. *)
Lemma ErrStoragePoolResizeInProgress_Error_plain (k : Z) (p : api.StoragePool) :
  (forall op, api.LastOperation p = Some op -> api.Type_ op <> k) ->
  ErrStoragePoolResizeInProgress_Error k {| Pool := Some p |} =
  Some ("a resize for pool: " +:+ api.Uuid p +:+ " is already in progress.").
Proof.
  intros H. unfold ErrStoragePoolResizeInProgress_Error. simpl.
  destruct (api.LastOperation p) as [op|]; [|reflexivity].
  destruct (Z.eqb_spec (api.Type_ op) k) as [E|_]; [|reflexivity].
  now destruct (H op eq_refl).
Qed.

(** C7. The message of a resize-in-progress error on a pool contains the
    pool's identifier; when the pool's last operation is a resize, it
    also contains that operation's message and its parameters. *)
Theorem ErrStoragePoolResizeInProgress_Error_contains
    (OPERATION_RESIZE : Z) (p : api.StoragePool) :
  exists msg : string,
    ErrStoragePoolResizeInProgress_Error OPERATION_RESIZE {| Pool := Some p |}
      = Some msg /\
    Contains msg (api.Uuid p) /\
    forall op : api.StoragePoolOperation,
      api.LastOperation p = Some op ->
      api.Type_ op = OPERATION_RESIZE ->
      Contains msg (api.Msg op) /\ Contains msg (api.Params op).
Proof.
  unfold ErrStoragePoolResizeInProgress_Error. simpl.
  destruct (api.LastOperation p) as [op|] eqn:Hop.
  - destruct (Z.eqb_spec (api.Type_ op) OPERATION_RESIZE) as [E|NE].
    + eexists. split; [reflexivity|]. split.
      * apply Contains_append_l, Contains_middle.
      * intros op' [= <-] _. split.
        -- exists ("a resize for pool: " +:+ api.Uuid p +:+
                   " is already in progress. "), (" " +:+ api.Params op).
           now rewrite !append_assoc.
        -- exists ("a resize for pool: " +:+ api.Uuid p +:+
                   " is already in progress. " +:+ api.Msg op +:+ " "), "".
           now rewrite !append_assoc, append_nil_r.
    + eexists. split; [reflexivity|]. split.
      * apply Contains_middle.
      * intros op' [= <-] E. contradiction.
  - eexists. split; [reflexivity|]. split.
    + apply Contains_middle.
    + intros op' [=].
Qed.

(** The scenario of the specification: a pool whose last operation is the
    resize [expanding] with parameters [+50GiB]. *)
Lemma ErrStoragePoolResizeInProgress_Error_scenario :
  exists msg : string,
    ErrStoragePoolResizeInProgress_Error 0
      {| Pool := Some {| api.Uuid := "pool-1";
                         api.LastOperation :=
                           Some {| api.Type_ := 0; api.Msg := "expanding";
                                   api.Params := "+50GiB" |} |} |}
      = Some msg /\
    Contains msg "pool-1" /\ Contains msg "expanding" /\
    Contains msg "+50GiB".
Proof.
  destruct (ErrStoragePoolResizeInProgress_Error_contains 0
              {| api.Uuid := "pool-1";
                 api.LastOperation :=
                   Some {| api.Type_ := 0; api.Msg := "expanding";
                           api.Params := "+50GiB" |} |})
    as (msg & Hmsg & Hid & Hop).
  exists msg. split; [exact Hmsg|]. split; [exact Hid|].
  exact (Hop _ eq_refl eq_refl).
Defined.

Example resize_scenario_message :
  ErrStoragePoolResizeInProgress_Error 0
    {| Pool := Some {| api.Uuid := "pool-1";
                       api.LastOperation :=
                         Some {| api.Type_ := 0; api.Msg := "expanding";
                                 api.Params := "+50GiB" |} |} |}
  = Some "a resize for pool: pool-1 is already in progress. expanding +50GiB".
Proof. reflexivity. Qed.

End errorsFacts.

(** ** The driver *)

Module nfsFacts.

Import GoStrings GoStringsFacts nfs.

Section Driver.

Context {Env : Type} {host : Host Env}.

Implicit Types (d : nfsDriver) (w : World Env) (v : awsVolume).

(** *** The adapter, step by step *)

Lemma get_unfold d volumeID w :
  get d volumeID w =
  let key := NfsDBKey +:+ "/" +:+ volumeID in
  let w1 := {| db := db w; env := (kvdb_fault (env w)).2;
               trace := trace w ++ [KvGetVal key] |} in
  match (kvdb_fault (env w)).1 with
  | Some msg => Some ((awsVolume_zero, Some (kvdb_Err msg)), w1)
  | None =>
      match db w !! key with
      | Some r => Some ((r, None), w1)
      | None => Some ((awsVolume_zero, Some kvdb_ErrNotFound), w1)
      end
  end.
Proof.
  unfold get, kvdb_GetVal, call, mbind, M_bind, mret, M_ret. simpl.
  destruct (kvdb_fault (env w)) as [[msg|] e]; reflexivity.
Qed.

Lemma put_unfold d volumeID v w :
  put d volumeID v w =
  let key := NfsDBKey +:+ "/" +:+ volumeID in
  let e := (kvdb_fault (env w)).2 in
  let t := trace w ++ [KvPut key v 0] in
  match (kvdb_fault (env w)).1 with
  | Some msg =>
      Some (Some (kvdb_Err msg), {| db := db w; env := e; trace := t |})
  | None =>
      Some (None, {| db := <[key := v]> (db w); env := e; trace := t |})
  end.
Proof.
  unfold put, kvdb_Put, call, mbind, M_bind, mret, M_ret. simpl.
  destruct (kvdb_fault (env w)) as [[msg|] e]; reflexivity.
Qed.

Lemma del_unfold d volumeID w :
  del d volumeID w =
  let key := NfsDBKey +:+ "/" +:+ volumeID in
  let e := (kvdb_fault (env w)).2 in
  let t := trace w ++ [KvDelete key] in
  match (kvdb_fault (env w)).1, db w !! key with
  | None, Some _ =>
      Some (tt, {| db := delete key (db w); env := e; trace := t |})
  | _, _ => Some (tt, {| db := db w; env := e; trace := t |})
  end.
Proof.
  unfold del, kvdb_Delete, call, mbind, M_bind, mret, M_ret. simpl.
  destruct (kvdb_fault (env w)) as [[msg|] e]; simpl;
    [|destruct (db w !! _)]; reflexivity.
Qed.

(** A lookup that finds a record found it in the store, which it leaves
    as it was. *)
Lemma get_found d volumeID w v w1 :
  get d volumeID w = Some ((v, None), w1) ->
  db w !! (NfsDBKey +:+ "/" +:+ volumeID) = Some v /\
  (kvdb_fault (env w)).1 = None /\
  w1 = {| db := db w; env := (kvdb_fault (env w)).2;
          trace := trace w ++ [KvGetVal (NfsDBKey +:+ "/" +:+ volumeID)] |}.
Proof.
  rewrite get_unfold. simpl.
  destruct (kvdb_fault (env w)).1 as [msg|]; [discriminate|].
  destruct (db w !! _) as [r|]; [|discriminate].
  intros [= -> <-]. auto.
Qed.

(** Conversely, the store serves a record it holds when no fault
    occurs. *)
Lemma get_present d volumeID w v :
  db w !! (NfsDBKey +:+ "/" +:+ volumeID) = Some v ->
  (kvdb_fault (env w)).1 = None ->
  get d volumeID w =
  Some ((v, None),
        {| db := db w; env := (kvdb_fault (env w)).2;
           trace := trace w ++ [KvGetVal (NfsDBKey +:+ "/" +:+ volumeID)] |}).
Proof. intros Hv Hf. rewrite get_unfold. simpl. now rewrite Hf, Hv. Qed.

(** The lookup fails with the store's not-found error exactly when the
    store answers and holds nothing under the key. *)
Lemma get_not_found d volumeID w :
  exists r w1, get d volumeID w = Some (r, w1) /\ db w1 = db w /\
    (r.2 = Some kvdb_ErrNotFound <->
     (kvdb_fault (env w)).1 = None /\
     db w !! (NfsDBKey +:+ "/" +:+ volumeID) = None) /\
    (r.2 = None \/ r.2 = Some kvdb_ErrNotFound \/
     exists msg, r.2 = Some (kvdb_Err msg)).
Proof.
  rewrite get_unfold. simpl.
  destruct (kvdb_fault (env w)).1 as [msg|].
  - eexists _, _. split; [reflexivity|]. simpl. split; [reflexivity|].
    split; [|eauto]. split; [discriminate|]. intros [[=] _].
  - destruct (db w !! _) as [r|]; eexists _, _;
      (split; [reflexivity|]); simpl; (split; [reflexivity|]).
    + split; [|auto]. split; [discriminate|]. intros [_ [=]].
    + split; [|auto]. split; auto.
Qed.

Lemma put_stored d volumeID v w w' :
  put d volumeID v w = Some (None, w') ->
  db w' = <[NfsDBKey +:+ "/" +:+ volumeID := v]> (db w).
Proof.
  rewrite put_unfold. simpl.
  destruct (kvdb_fault (env w)).1; intros [= <-]; reflexivity.
Qed.

Lemma put_result d volumeID v w :
  exists r w', put d volumeID v w = Some (r, w') /\
    (r = None \/ exists msg, r = Some (kvdb_Err msg)).
Proof.
  rewrite put_unfold. simpl.
  destruct (kvdb_fault (env w)).1; eexists _, _; eauto.
Qed.

(** *** The operations in terms of the adapter *)

Lemma Mount_unfold d volumeID mountpath w :
  Mount d volumeID mountpath w =
  match get d volumeID w with
  | None => None
  | Some ((v, Some e), w1) => Some (Some e, w1)
  | Some ((v, None), w1) =>
      let c := SyscallMount (device v) mountpath (api.Format (spec v)) 0 "" in
      let r := syscall_Mount (device v) mountpath (api.Format (spec v)) 0 ""
                 (env w1) in
      let w2 := {| db := db w1; env := r.2; trace := trace w1 ++ [c] |} in
      match r.1 with
      | Some errno => Some (Some (os_Err errno), w2)
      | None =>
          put d volumeID (set_mounted true (set_mountpath mountpath v)) w2
      end
  end.
Proof.
  unfold Mount, call, mbind, M_bind, mret, M_ret.
  destruct (get d volumeID w) as [[[v [e|]] w1]|]; try reflexivity.
  simpl. destruct (syscall_Mount _ _ _ _ _ _) as [[errno|] e2]; reflexivity.
Qed.

Lemma Unmount_unfold d volumeID mountpath w :
  Unmount d volumeID mountpath w =
  match get d volumeID w with
  | None => None
  | Some ((v, Some e), w1) => Some (Some e, w1)
  | Some ((v, None), w1) =>
      let c := SyscallUnmount (nfs.mountpath v) 0 in
      let r := syscall_Unmount (nfs.mountpath v) 0 (env w1) in
      let w2 := {| db := db w1; env := r.2; trace := trace w1 ++ [c] |} in
      match r.1 with
      | Some errno => Some (Some (os_Err errno), w2)
      | None => put d volumeID (set_mounted false (set_mountpath "" v)) w2
      end
  end.
Proof.
  unfold Unmount, call, mbind, M_bind, mret, M_ret.
  destruct (get d volumeID w) as [[[v [e|]] w1]|]; try reflexivity.
  simpl. destruct (syscall_Unmount _ _ _) as [[errno|] e2]; reflexivity.
Qed.

Lemma Delete_unfold d volumeID w :
  Delete d volumeID w =
  match get d volumeID w with
  | None => None
  | Some ((v, Some e), w1) => Some (Some e, w1)
  | Some ((v, None), w1) =>
      let r := os_Remove (device v) (env w1) in
      let w2 := {| db := db w1; env := r.2;
                   trace := trace w1 ++ [OsRemove (device v)] |} in
      match r.1 with
      | Some errno => Some (Some (os_Err errno), w2)
      | None =>
          match del d volumeID w2 with
          | Some (_, w3) => Some (None, w3)
          | None => None
          end
      end
  end.
Proof.
  unfold Delete, call, mbind, M_bind, mret, M_ret.
  destruct (get d volumeID w) as [[[v [e|]] w1]|]; try reflexivity.
  simpl. destruct (os_Remove _ _) as [[errno|] e2]; simpl; [reflexivity|].
  destruct (del d volumeID _) as [[[] w3]|]; reflexivity.
Qed.

(** *** Mount and Unmount *)

(** C1, as amended.  After a successful [Mount] the record persisted for
    the volume has [mounted = true] and [mountpath] equal to the
    requested target; [attached] and the other fields are those of the
    record that was read: [Mount] does not set [attached]. *)
Theorem Mount_persists d volumeID target w w' :
  Mount d volumeID target w = Some (None, w') ->
  exists v r : awsVolume,
    db w !! (NfsDBKey +:+ "/" +:+ volumeID) = Some v /\
    db w' !! (NfsDBKey +:+ "/" +:+ volumeID) = Some r /\
    mounted r = true /\ mountpath r = target /\
    attached r = attached v /\ spec r = spec v /\
    formatted r = formatted v /\ device r = device v.
Proof.
  rewrite Mount_unfold.
  destruct (get d volumeID w) as [[[v [e|]] w1]|] eqn:Hget;
    [discriminate| |discriminate].
  apply get_found in Hget as (Hv & _ & ->). simpl.
  destruct (syscall_Mount _ _ _ _ _ _).1; [discriminate|].
  intros Hput%put_stored. simpl in Hput.
  exists v, (set_mounted true (set_mountpath target v)).
  split; [exact Hv|]. split; [|now repeat split].
  rewrite Hput. apply lookup_insert_eq.
Qed.

(** C3.  When the lookup found the record and the operating system
    refuses the mount, [Mount] returns that error; the store is as it
    was, the record included, and no [Put] was sent to it. *)
Theorem Mount_syscall_failure d volumeID target w v w1 errno e2 :
  get d volumeID w = Some ((v, None), w1) ->
  syscall_Mount (device v) target (api.Format (spec v)) 0 "" (env w1)
    = (Some errno, e2) ->
  exists w',
    Mount d volumeID target w = Some (Some (os_Err errno), w') /\
    db w' = db w /\
    db w' !! (NfsDBKey +:+ "/" +:+ volumeID) = Some v /\
    trace w' =
      trace w ++
      [KvGetVal (NfsDBKey +:+ "/" +:+ volumeID);
       SyscallMount (device v) target (api.Format (spec v)) 0 ""].
Proof.
  intros Hget Hsys. rewrite Mount_unfold, Hget. simpl. rewrite Hsys. simpl.
  apply get_found in Hget as (Hv & _ & ->). simpl.
  eexists. split; [reflexivity|]. simpl.
  split; [reflexivity|]. split; [exact Hv|]. now rewrite <- app_assoc.
Qed.

(** C4.  After a successful [Unmount] the record persisted for the
    volume has [mounted = false] and an empty [mountpath]. *)
Theorem Unmount_persists d volumeID mountpath w w' :
  Unmount d volumeID mountpath w = Some (None, w') ->
  exists r : awsVolume,
    db w' !! (NfsDBKey +:+ "/" +:+ volumeID) = Some r /\
    mounted r = false /\ nfs.mountpath r = "".
Proof.
  rewrite Unmount_unfold.
  destruct (get d volumeID w) as [[[v [e|]] w1]|] eqn:Hget;
    [discriminate| |discriminate].
  simpl. destruct (syscall_Unmount _ _ _).1; [discriminate|].
  intros Hput%put_stored. simpl in Hput.
  exists (set_mounted false (set_mountpath "" v)).
  split; [|now split]. rewrite Hput. apply lookup_insert_eq.
Qed.

(** [Unmount] never looks at its [mountpath] argument. *)
Lemma Unmount_argument_irrelevant d volumeID mountpath mountpath' w :
  Unmount d volumeID mountpath w = Unmount d volumeID mountpath' w.
Proof. reflexivity. Qed.


(** *** Delete *)

(** C5, as amended.  Once the lookup has found the record, [Delete]
    stands or falls with [os.Remove] of the record's device: if the
    removal fails (the directory is already gone, say), [Delete]
    returns that error and the record stays in the store, however
    often it is retried; if the removal succeeds, [Delete] returns
    [nil], and the record is gone when the store serves the
    deletion. *)
Theorem Delete_follows_Remove d volumeID w v w1 :
  get d volumeID w = Some ((v, None), w1) ->
  (forall errno e2,
      os_Remove (device v) (env w1) = (Some errno, e2) ->
      exists w',
        Delete d volumeID w = Some (Some (os_Err errno), w') /\
        db w' = db w /\
        db w' !! (NfsDBKey +:+ "/" +:+ volumeID) = Some v) /\
  (forall e2,
      os_Remove (device v) (env w1) = (None, e2) ->
      exists w',
        Delete d volumeID w = Some (None, w') /\
        ((kvdb_fault e2).1 = None ->
         db w' = delete (NfsDBKey +:+ "/" +:+ volumeID) (db w))).
Proof.
  intros Hget. split.
  - intros errno e2 Hrm. rewrite Delete_unfold, Hget. simpl. rewrite Hrm.
    simpl. apply get_found in Hget as (Hv & _ & ->). simpl.
    eexists. split; [reflexivity|]. simpl. split; [reflexivity|exact Hv].
  - intros e2 Hrm. rewrite Delete_unfold, Hget. simpl. rewrite Hrm. simpl.
    rewrite del_unfold. simpl.
    apply get_found in Hget as (Hv & _ & ->). simpl.
    destruct (kvdb_fault e2).1 as [msg|].
    + eexists. split; [reflexivity|]. discriminate.
    + rewrite Hv. eexists. split; [reflexivity|]. reflexivity.
Qed.

(** *** Existence *)

(** [Inspect] returns no volumes and no error, whatever the store
    holds. *)
Lemma Inspect_nil {Volume : Type} d (volumeIDs : option (list api.VolumeID)) w :
  Inspect (Volume := Volume) d volumeIDs w = Some ((None, None), w).
Proof. reflexivity. Qed.

(** What follows a lookup decides nothing about absence: an operation
    that returns the error of a failed lookup, and otherwise goes on with
    a step [k] that never reports a missing record, reports one exactly
    when the store answers the lookup and has nothing under the key. *)
Lemma after_get_not_found d volumeID w
    (k : awsVolume -> World Env -> option (option error * World Env)) :
  (forall v w1, exists r w',
      k v w1 = Some (r, w') /\ r <> Some kvdb_ErrNotFound /\
      forall e, r <> Some (Err_NotFound e)) ->
  exists r w',
    match get d volumeID w with
    | None => None
    | Some ((v, Some e), w1) => Some (Some e, w1)
    | Some ((v, None), w1) => k v w1
    end = Some (r, w') /\
    (r = Some kvdb_ErrNotFound <->
     (kvdb_fault (env w)).1 = None /\
     db w !! (NfsDBKey +:+ "/" +:+ volumeID) = None) /\
    ((kvdb_fault (env w)).1 = None /\
     db w !! (NfsDBKey +:+ "/" +:+ volumeID) = None -> db w' = db w) /\
    forall e, r <> Some (Err_NotFound e).
Proof.
  intros Hk.
  destruct (get_not_found d volumeID w)
    as ([v r] & w1 & -> & Hdb & Hiff & Hkind). simpl in Hiff, Hkind.
  destruct r as [e|].
  - exists (Some e), w1. split; [reflexivity|]. split; [exact Hiff|].
    split; [intros _; exact Hdb|].
    intros e' [= ->]. destruct Hkind as [[=] | [[=] | [msg [=]]]].
  - destruct (Hk v w1) as (r & w' & -> & Hne & Htyped).
    exists r, w'. split; [reflexivity|]. split; [|split; [|exact Htyped]].
    + split; [intros H; now destruct (Hne H)|].
      intros H. apply Hiff in H. discriminate H.
    + intros H. apply Hiff in H. discriminate H.
Qed.

(** C2, as amended.  [Mount], [Unmount] and [Delete] fail with the
    store's own not-found error, which they pass on unchanged, exactly
    when the store answers the lookup and holds no record under the
    key of the volume; the store is then as it was.  None of them ever
    returns the typed [ErrNotFound].  [Inspect] does not consult the
    store and returns no error. *)
Theorem not_found_iff_absent {Volume : Type} d volumeID mountpath w :
  let absent :=
    (kvdb_fault (env w)).1 = None /\
    db w !! (NfsDBKey +:+ "/" +:+ volumeID) = None in
  (exists r w', Mount d volumeID mountpath w = Some (r, w') /\
     (r = Some kvdb_ErrNotFound <-> absent) /\
     (absent -> db w' = db w) /\
     forall e, r <> Some (Err_NotFound e)) /\
  (exists r w', Unmount d volumeID mountpath w = Some (r, w') /\
     (r = Some kvdb_ErrNotFound <-> absent) /\
     (absent -> db w' = db w) /\
     forall e, r <> Some (Err_NotFound e)) /\
  (exists r w', Delete d volumeID w = Some (r, w') /\
     (r = Some kvdb_ErrNotFound <-> absent) /\
     (absent -> db w' = db w) /\
     forall e, r <> Some (Err_NotFound e)) /\
  Inspect (Volume := Volume) d (Some [volumeID]) w = Some ((None, None), w).
Proof.
  intros absent. subst absent.
  split; [|split; [|split; [|reflexivity]]].
  - rewrite Mount_unfold. apply after_get_not_found. intros v w1. simpl.
    destruct (syscall_Mount _ _ _ _ _ _) as [[errno|] e2]; simpl.
    + eexists _, _. split; [reflexivity|]. split; [|intros e]; discriminate.
    + destruct (put_result d volumeID
                  (set_mounted true (set_mountpath mountpath v))
                  {| db := db w1; env := e2;
                     trace := trace w1 ++
                       [SyscallMount (device v) mountpath
                          (api.Format (spec v)) 0 ""] |})
        as (r & w' & -> & [-> | [msg ->]]);
        eexists _, _; (split; [reflexivity|]);
        (split; [|intros e]; discriminate).
  - rewrite Unmount_unfold. apply after_get_not_found. intros v w1. simpl.
    destruct (syscall_Unmount _ _ _) as [[errno|] e2]; simpl.
    + eexists _, _. split; [reflexivity|]. split; [|intros e]; discriminate.
    + destruct (put_result d volumeID
                  (set_mounted false (set_mountpath "" v))
                  {| db := db w1; env := e2;
                     trace := trace w1 ++
                       [SyscallUnmount (nfs.mountpath v) 0] |})
        as (r & w' & -> & [-> | [msg ->]]);
        eexists _, _; (split; [reflexivity|]);
        (split; [|intros e]; discriminate).
  - rewrite Delete_unfold. apply after_get_not_found. intros v w1. simpl.
    destruct (os_Remove _ _) as [[errno|] e2]; simpl.
    + eexists _, _. split; [reflexivity|]. split; [|intros e]; discriminate.
    + rewrite del_unfold. simpl.
      destruct (kvdb_fault e2).1; [|destruct (db w1 !! _)];
        eexists _, _; (split; [reflexivity|]);
        (split; [|intros e]; discriminate).
Qed.

(** *** Snapshots *)

(** C6.  [Snapshot], [SnapDelete], [SnapInspect] and [SnapEnumerate] all
    fail with the one [NotSupported] error and touch nothing; its type
    has a single value, and its message is always the same. *)
Theorem snapshots_not_supported {VolumeSnap : Type} d
    (volumeID : api.VolumeID) (labels : api.Labels) (snapID : api.SnapID)
    (snapIDs : option (list api.SnapID)) (locator : api.VolumeLocator) w :
  Snapshot d volumeID labels w = Some (("", Some volume_ErrNotSupported), w) /\
  SnapDelete d snapID w = Some (Some volume_ErrNotSupported, w) /\
  SnapInspect (VolumeSnap := VolumeSnap) d snapIDs w
    = Some ((Some [], Some volume_ErrNotSupported), w) /\
  SnapEnumerate (VolumeSnap := VolumeSnap) d locator labels w
    = Some ((None, Some volume_ErrNotSupported), w) /\
  (exists e : errors.ErrNotSupported,
      volume_ErrNotSupported = Err_NotSupported e) /\
  (forall e e' : errors.ErrNotSupported, e = e') /\
  (forall e : errors.ErrNotSupported,
      errors.ErrNotSupported_Error e = "Not Supported").
Proof.
  repeat split.
  - now exists errors.mkErrNotSupported.
  - now intros [] [].
Qed.

(** *** The keys of the adapter *)

(** The prefix of the driver is free of the separator. *)
Lemma NfsDBKey_no_separator : ContainsRune NfsDBKey "/" = false.
Proof. reflexivity. Qed.

(** C8, as amended.  [get], [put] and [del] each send the store one request, and
    all three address the same key: the prefix of the driver, which is
    [NfsDBKey] and the separator, followed by the volume ID.  [get]
    reads that key, [put] and [del] change at most that key.  The key
    of the same volume under another prefix is a different key, and so
    is the key of any volume under another prefix that is free of the
    separator. *)
Theorem adapter_key d volumeID v w :
  let key := (NfsDBKey +:+ "/") +:+ volumeID in
  (exists r w',
      get d volumeID w = Some (r, w') /\
      trace w' = trace w ++ [KvGetVal key] /\ db w' = db w /\
      (r.2 = None -> db w !! key = Some r.1)) /\
  (exists r w',
      put d volumeID v w = Some (r, w') /\
      trace w' = trace w ++ [KvPut key v 0] /\
      (r = None -> db w' = <[key := v]> (db w)) /\
      (r <> None -> db w' = db w)) /\
  (exists w',
      del d volumeID w = Some (tt, w') /\
      trace w' = trace w ++ [KvDelete key] /\
      (db w' = delete key (db w) \/ db w' = db w)) /\
  (forall prefix : string,
      prefix <> NfsDBKey -> (prefix +:+ "/") +:+ volumeID <> key) /\
  (forall prefix volumeID' : string,
      ContainsRune prefix "/" = false -> prefix <> NfsDBKey ->
      (prefix +:+ "/") +:+ volumeID' <> key).
Proof.
  intros key. subst key. rewrite !append_assoc.
  split; [|split; [|split; [|split]]].
  - rewrite get_unfold. simpl.
    destruct (kvdb_fault (env w)).1 as [msg|].
    + eexists _, _. split; [reflexivity|]. simpl. now repeat split.
    + destruct (db w !! _) as [r|] eqn:Hr; eexists _, _;
        (split; [reflexivity|]); simpl; now repeat split.
  - rewrite put_unfold. simpl.
    destruct (kvdb_fault (env w)).1 as [msg|];
      eexists _, _; (split; [reflexivity|]); simpl; now repeat split.
  - rewrite del_unfold. simpl.
    destruct (kvdb_fault (env w)).1 as [msg|]; [|destruct (db w !! _)];
      eexists; (split; [reflexivity|]); simpl; split; auto.
  - intros prefix Hne Heq. apply Hne.
    rewrite <- !append_assoc in Heq.
    apply append_inv_tail in Heq. now apply append_inv_tail in Heq.
  - intros prefix volumeID' Hfree Hne Heq. apply Hne.
    rewrite !append_assoc in Heq.
    now apply (separated_prefix_inj "/" prefix NfsDBKey volumeID' volumeID
                 Hfree NfsDBKey_no_separator) in Heq as [-> _].
Qed.

(** *** Create *)

(** C10.  [Create] succeeds exactly when [uuidgen] prints an identifier,
    the directory can be made, the spec is not [nil] and the store
    serves the [put]; the new volume ID is the output of [uuidgen] less
    its final line feed, and the world afterwards is the world before
    with one more record and three more calls: [uuidgen], the directory
    [mntPath] followed by the ID with mode 0744, and the [put] of the
    record.  That record, persisted under the key of the new ID, has the
    supplied spec, the device [mntPath] followed by the ID, every flag
    down and no mountpath; every other key of the store is as it was. *)
Theorem Create_persists {CreateOptions : Type} d (l : api.VolumeLocator)
    (opt : option CreateOptions) (spec : option api.VolumeSpec)
    (volumeID : api.VolumeID) w w' :
  let u := exec_uuidgen (env w) in
  let new := TrimSuffix u.1.1 LF in
  let m := os_MkdirAll (mntPath d +:+ new) 484 u.2 in
  let fresh := fun s : api.VolumeSpec =>
    {| nfs.spec := s; formatted := false; attached := false;
       mounted := false; device := mntPath d +:+ new; mountpath := "" |} in
  (Create d l opt spec w = Some ((volumeID, None), w') <->
   exists s : api.VolumeSpec,
     spec = Some s /\ u.1.2 = None /\ m.1 = None /\
     (kvdb_fault m.2).1 = None /\ volumeID = new /\
     w' = {| db := <[NfsDBKey +:+ "/" +:+ new := fresh s]> (db w);
             env := (kvdb_fault m.2).2;
             trace := trace w ++
                      [ExecUuidgen; OsMkdirAll (mntPath d +:+ new) 484;
                       KvPut (NfsDBKey +:+ "/" +:+ new) (fresh s) 0] |}) /\
  (Create d l opt spec w = Some ((volumeID, None), w') ->
   exists s : api.VolumeSpec,
     spec = Some s /\
     volumeID = new /\
     db w' !! (NfsDBKey +:+ "/" +:+ volumeID) =
     Some {| nfs.spec := s; formatted := false; attached := false;
             mounted := false; device := mntPath d +:+ volumeID;
             mountpath := "" |} /\
     forall key : string,
       key <> NfsDBKey +:+ "/" +:+ volumeID -> db w' !! key = db w !! key).
Proof.
  intros u new m fresh.
  assert (Hiff :
    Create d l opt spec w = Some ((volumeID, None), w') <->
    exists s : api.VolumeSpec,
      spec = Some s /\ u.1.2 = None /\ m.1 = None /\
      (kvdb_fault m.2).1 = None /\ volumeID = new /\
      w' = {| db := <[NfsDBKey +:+ "/" +:+ new := fresh s]> (db w);
              env := (kvdb_fault m.2).2;
              trace := trace w ++
                       [ExecUuidgen; OsMkdirAll (mntPath d +:+ new) 484;
                        KvPut (NfsDBKey +:+ "/" +:+ new) (fresh s) 0] |}).
  { subst u new m fresh.
    unfold Create, call, mbind, M_bind, mret, M_ret. simpl.
    destruct (exec_uuidgen (env w)) as [[out [e|]] e1]; simpl.
    { split; [discriminate|]. intros (s & _ & [=] & _). }
    destruct (os_MkdirAll _ _ _) as [[errno|] e2]; simpl.
    { split; [discriminate|]. intros (s & _ & _ & [=] & _). }
    destruct spec as [s|].
    2:{ split; [discriminate|]. intros (s & [=] & _). }
    rewrite put_unfold. simpl.
    destruct (kvdb_fault e2) as [[msg|] e3]; simpl.
    { split; [discriminate|]. intros (s' & _ & _ & _ & [=] & _). }
    split.
    - intros [= <- <-]. exists s. repeat split. now rewrite <- !app_assoc.
    - intros (s' & [= <-] & _ & _ & _ & -> & ->). now rewrite <- !app_assoc. }
  split; [exact Hiff|].
  intros (s & -> & _ & _ & _ & -> & ->)%Hiff.
  exists s. split; [reflexivity|]. split; [reflexivity|]. simpl. split.
  - apply lookup_insert_eq.
  - intros key Hne. apply lookup_insert_ne. congruence.
Qed.

(** [Create] panics on a [nil] spec once the directory is made. *)
Lemma Create_nil_spec {CreateOptions : Type} d (l : api.VolumeLocator)
    (opt : option CreateOptions) w :
  (exec_uuidgen (env w)).1.2 = None ->
  (os_MkdirAll
     (mntPath d +:+ TrimSuffix (exec_uuidgen (env w)).1.1 LF) 484
     (exec_uuidgen (env w)).2).1 = None ->
  Create d l opt None w = None.
Proof.
  unfold Create, call, mbind, M_bind, mret, M_ret. simpl.
  destruct (exec_uuidgen (env w)) as [[out [e|]] e1]; simpl;
    [discriminate|]. intros _.
  destruct (os_MkdirAll _ _ _) as [[errno|] e2]; simpl; [discriminate|].
  reflexivity.
Qed.

End Driver.

End nfsFacts.

(** ** The driver on the small host *)

Module simFacts.

Import GoStrings nfs sim nfsFacts.

(** *** The run *)

Lemma run_Init : Init params0 w0 = Some ((Some d0, None), w_init).
Proof. vm_compute. reflexivity. Qed.

Lemma run_Create :
  Create (CreateOptions := unit) d0 l0 None (Some spec0) w_init
  = Some (("vol1", None), w1).
Proof. vm_compute. reflexivity. Qed.

Lemma run_Mount : Mount d0 "vol1" "/mnt/x" w1 = Some (None, w2).
Proof. vm_compute. reflexivity. Qed.

Lemma run_Mount_refused :
  Mount d0 "vol1" "/mnt/y" w1 = Some (Some (os_Err ENOENT), w1_refused).
Proof. vm_compute. reflexivity. Qed.

Lemma run_Unmount : Unmount d0 "vol1" "/mnt/x" w2 = Some (None, w3).
Proof. vm_compute. reflexivity. Qed.

Lemma run_Delete_until_crash :
  Delete_until_crash d0 "vol1" w1 = Some (None, w_crashed).
Proof. vm_compute. reflexivity. Qed.

Lemma run_Delete_retried :
  Delete d0 "vol1" w_crashed = Some (Some (os_Err ENOENT), w_retried).
Proof. vm_compute. reflexivity. Qed.

(** *** Where the driver departs from the specification *)

(** C1, as stated, fails: [Create] writes the record of [vol1] with
    [attached = false], the [Mount] that follows succeeds, and the record
    it persists is mounted at the target but still not attached. *)
Lemma Mount_leaves_attached_false :
  Create (CreateOptions := unit) d0 l0 None (Some spec0) w_init
    = Some (("vol1", None), w1) /\
  Mount d0 "vol1" "/mnt/x" w1 = Some (None, w2) /\
  db w2 !! (NfsDBKey +:+ "/" +:+ "vol1") = Some rec2 /\
  attached rec2 = false /\
  ~ (exists r : awsVolume,
        db w2 !! (NfsDBKey +:+ "/" +:+ "vol1") = Some r /\
        mounted r = true /\ mountpath r = "/mnt/x" /\ attached r = true).
Proof.
  split; [vm_compute; reflexivity|]. split; [vm_compute; reflexivity|].
  assert (H : db w2 !! (NfsDBKey +:+ "/" +:+ "vol1") = Some rec2)
    by (vm_compute; reflexivity).
  split; [exact H|]. split; [reflexivity|].
  intros (r & Hr & _ & _ & Ha). rewrite H in Hr. injection Hr as <-.
  discriminate Ha.
Qed.

(** C2, as stated, fails: no record of [vol1] is stored in [w0], and
    [Inspect] of [vol1] returns no error at all. *)
Lemma Inspect_absent_returns_nil :
  db w0 !! (NfsDBKey +:+ "/" +:+ "vol1") = None /\
  Inspect (Volume := unit) d0 (Some ["vol1"]) w0 = Some ((None, None), w0) /\
  ~ (exists (vs : option (list unit)) (e : error) (w' : World SimEnv),
        Inspect (Volume := unit) d0 (Some ["vol1"]) w0
        = Some ((vs, Some e), w')).
Proof.
  split; [vm_compute; reflexivity|]. split; [reflexivity|].
  intros (vs & e & w' & H). discriminate H.
Qed.

(** C5, as stated, fails: after a [Delete] of [vol1] that was cut short
    between the removal of the directory and the removal of the record,
    a second [Delete] fails with [ENOENT] and the record is still
    stored. *)
Lemma Delete_retry_fails :
  Delete_until_crash d0 "vol1" w1 = Some (None, w_crashed) /\
  Delete d0 "vol1" w_crashed = Some (Some (os_Err ENOENT), w_retried) /\
  db w_retried !! (NfsDBKey +:+ "/" +:+ "vol1") = Some rec1 /\
  ~ (exists w' : World SimEnv,
        Delete d0 "vol1" w_crashed = Some (None, w') /\
        db w' !! (NfsDBKey +:+ "/" +:+ "vol1") = None).
Proof.
  split; [vm_compute; reflexivity|].
  assert (H : Delete d0 "vol1" w_crashed
              = Some (Some (os_Err ENOENT), w_retried))
    by (vm_compute; reflexivity).
  split; [exact H|]. split; [vm_compute; reflexivity|].
  intros (w' & H' & _). rewrite H in H'. discriminate H'.
Qed.

(** C8, as stated, fails: a prefix other than [NfsDBKey] that contains the
    separator gives its volume [b] the key that this driver gives to the
    volume ID [a/b]; a record put in the store under the one is what the
    driver's [get] of the other returns. *)
Lemma keys_of_two_prefixes_collide :
  "OpenStorageNFSKey/a" <> NfsDBKey /\
  ("OpenStorageNFSKey/a" +:+ "/") +:+ "b" = (NfsDBKey +:+ "/") +:+ "a/b" /\
  (exists w' w'' : World SimEnv,
      kvdb_Put (("OpenStorageNFSKey/a" +:+ "/") +:+ "b") rec2 0 w0
      = Some (None, w') /\
      get d0 "a/b" w' = Some ((rec2, None), w'')) /\
  ~ (forall prefix volumeID volumeID' : string,
        prefix <> NfsDBKey ->
        (prefix +:+ "/") +:+ volumeID' <> (NfsDBKey +:+ "/") +:+ volumeID).
Proof.
  split; [unfold NfsDBKey; discriminate|].
  split; [reflexivity|]. split.
  - exists {| db := {[ "OpenStorageNFSKey/a/b" := rec2 ]}; env := env0;
              trace := [KvPut "OpenStorageNFSKey/a/b" rec2 0] |},
           {| db := {[ "OpenStorageNFSKey/a/b" := rec2 ]}; env := env0;
              trace := [KvPut "OpenStorageNFSKey/a/b" rec2 0;
                        KvGetVal "OpenStorageNFSKey/a/b"] |}.
    split; vm_compute; reflexivity.
  - intros H.
    apply (H "OpenStorageNFSKey/a" "a/b" "b");
      [unfold NfsDBKey; discriminate | reflexivity].
Qed.

(** *** The theorems at work on the run *)

Lemma Mount_persists_witness :
  Mount d0 "vol1" "/mnt/x" w1 = Some (None, w2) /\
  exists v r : awsVolume,
    db w1 !! (NfsDBKey +:+ "/" +:+ "vol1") = Some v /\
    db w2 !! (NfsDBKey +:+ "/" +:+ "vol1") = Some r /\
    mounted r = true /\ mountpath r = "/mnt/x" /\
    attached r = attached v /\ spec r = spec v /\
    formatted r = formatted v /\ device r = device v.
Proof.
  split; [vm_compute; reflexivity|].
  apply (Mount_persists d0 "vol1" "/mnt/x" w1 w2).
  vm_compute; reflexivity.
Defined.

Lemma Mount_syscall_failure_witness :
  exists w' : World SimEnv,
    Mount d0 "vol1" "/mnt/y" w1 = Some (Some (os_Err ENOENT), w') /\
    db w' = db w1 /\
    db w' !! (NfsDBKey +:+ "/" +:+ "vol1") = Some rec1 /\
    trace w' =
      trace w1 ++
      [KvGetVal (NfsDBKey +:+ "/" +:+ "vol1");
       SyscallMount (device rec1) "/mnt/y" (api.Format (spec rec1)) 0 ""].
Proof.
  apply (Mount_syscall_failure d0 "vol1" "/mnt/y" w1 rec1 (after_get w1)
           ENOENT env1).
  - vm_compute; reflexivity.
  - vm_compute; reflexivity.
Defined.

Lemma Unmount_persists_witness :
  Unmount d0 "vol1" "/mnt/x" w2 = Some (None, w3) /\
  exists r : awsVolume,
    db w3 !! (NfsDBKey +:+ "/" +:+ "vol1") = Some r /\
    mounted r = false /\ mountpath r = "".
Proof.
  split; [vm_compute; reflexivity|].
  apply (Unmount_persists d0 "vol1" "/mnt/x" w2 w3).
  vm_compute; reflexivity.
Defined.


Lemma Delete_follows_Remove_witness :
  exists w' : World SimEnv,
    Delete d0 "vol1" w_crashed = Some (Some (os_Err ENOENT), w') /\
    db w' = db w_crashed /\
    db w' !! (NfsDBKey +:+ "/" +:+ "vol1") = Some rec1.
Proof.
  assert (H : get d0 "vol1" w_crashed
              = Some ((rec1, None), after_get w_crashed))
    by (vm_compute; reflexivity).
  apply (proj1 (Delete_follows_Remove d0 "vol1" w_crashed rec1
                  (after_get w_crashed) H) ENOENT (env w_crashed)).
  vm_compute; reflexivity.
Defined.

Lemma not_found_iff_absent_witness :
  exists (r : option error) (w' : World SimEnv),
    Mount d0 "vol1" "/mnt/x" w0 = Some (r, w') /\ r = Some kvdb_ErrNotFound.
Proof.
  destruct (not_found_iff_absent (Volume := unit) d0 "vol1" "/mnt/x" w0)
    as [(r & w' & H & Hiff & _ & _) _].
  exists r, w'. split; [exact H|]. apply Hiff.
  split; vm_compute; reflexivity.
Defined.

Lemma adapter_key_witness :
  ("OpenStorageBtrfsKey" +:+ "/") +:+ "vol9" <> (NfsDBKey +:+ "/") +:+ "vol1".
Proof.
  destruct (adapter_key d0 "vol1" rec1 w1) as (_ & _ & _ & _ & H).
  apply H; [reflexivity|]. unfold NfsDBKey. discriminate.
Defined.

Lemma Create_persists_witness :
  Create (CreateOptions := unit) d0 l0 None (Some spec0) w_init
    = Some (("vol1", None), w1) /\
  exists s : api.VolumeSpec,
    Some spec0 = Some s /\
    "vol1" = TrimSuffix (exec_uuidgen (env w_init)).1.1 LF /\
    db w1 !! (NfsDBKey +:+ "/" +:+ "vol1") =
    Some {| spec := s; formatted := false; attached := false;
            mounted := false; device := mntPath d0 +:+ "vol1";
            mountpath := "" |} /\
    forall key : string,
      key <> NfsDBKey +:+ "/" +:+ "vol1" -> db w1 !! key = db w_init !! key.
Proof.
  assert (H : Create (CreateOptions := unit) d0 l0 None (Some spec0) w_init
              = Some (("vol1", None), w1)).
  { apply (proj2 (proj1 (Create_persists (CreateOptions := unit) d0 l0 None
                           (Some spec0) "vol1" w_init w1))).
    exists spec0. repeat split; vm_compute; reflexivity. }
  split; [exact H|].
  exact (proj2 (Create_persists (CreateOptions := unit) d0 l0 None
                  (Some spec0) "vol1" w_init w1) H).
Defined.

End simFacts.

(** ** More on the driver: the adapter, Init and Create *)

Module nfsMore.

Import GoStrings GoStringsFacts nfs nfsFacts.

Section Driver.

Context {Env : Type} {host : Host Env}.

Implicit Types (d : nfsDriver) (w : World Env) (v : awsVolume).

(** Different volume IDs have different keys. *)
Lemma key_inj (volumeID volumeID' : string) :
  NfsDBKey +:+ "/" +:+ volumeID = NfsDBKey +:+ "/" +:+ volumeID' ->
  volumeID = volumeID'.
Proof. intros H. now do 2 apply String.app_inj in H. Qed.

Lemma key_ne (volumeID volumeID' : string) :
  volumeID' <> volumeID ->
  NfsDBKey +:+ "/" +:+ volumeID <> NfsDBKey +:+ "/" +:+ volumeID'.
Proof. intros Hne H. apply Hne. symmetry. now apply key_inj. Qed.

(** *** The adapter *)

(** X1.  What [put] stores under a volume ID, the next lookup of that ID
    that the store serves returns; the records of all other volume IDs
    are as they were before the [put]. *)
Theorem put_get_roundtrip d volumeID v w w1 :
  put d volumeID v w = Some (None, w1) ->
  (kvdb_fault (env w1)).1 = None ->
  (exists w2, get d volumeID w1 = Some ((v, None), w2) /\ db w2 = db w1) /\
  forall volumeID' : string,
    volumeID' <> volumeID ->
    db w1 !! (NfsDBKey +:+ "/" +:+ volumeID') =
    db w !! (NfsDBKey +:+ "/" +:+ volumeID').
Proof.
  intros Hput Hserved. apply put_stored in Hput. split.
  - eexists. split.
    + apply get_present; [|exact Hserved]. rewrite Hput. apply lookup_insert_eq.
    + reflexivity.
  - intros volumeID' Hne. rewrite Hput.
    apply lookup_insert_ne. now apply key_ne.
Qed.

(** X2.  When the store serves it, [del] leaves no record under the volume
    ID, whether there was one or not, and the records of all other
    volume IDs are as they were; the next lookup of the ID that the store
    serves fails with the store's not-found error and the zero record. *)
Theorem del_get_not_found d volumeID w :
  (kvdb_fault (env w)).1 = None ->
  exists w1,
    del d volumeID w = Some (tt, w1) /\
    db w1 !! (NfsDBKey +:+ "/" +:+ volumeID) = None /\
    (forall volumeID' : string,
        volumeID' <> volumeID ->
        db w1 !! (NfsDBKey +:+ "/" +:+ volumeID') =
        db w !! (NfsDBKey +:+ "/" +:+ volumeID')) /\
    ((kvdb_fault (env w1)).1 = None ->
     exists w2,
       get d volumeID w1
       = Some ((awsVolume_zero, Some kvdb_ErrNotFound), w2)).
Proof.
  intros Hserved. rewrite del_unfold. simpl. rewrite Hserved.
  destruct (db w !! _) as [r|] eqn:Hr; eexists; (split; [reflexivity|]); simpl.
  - split; [apply lookup_delete_eq|]. split.
    + intros volumeID' Hne. apply lookup_delete_ne. now apply key_ne.
    + intros Hnext. rewrite get_unfold. simpl. rewrite Hnext.
      rewrite lookup_delete_eq. eexists. reflexivity.
  - split; [exact Hr|]. split; [reflexivity|].
    intros Hnext. rewrite get_unfold. simpl. rewrite Hnext, Hr.
    eexists. reflexivity.
Qed.

(** *** Init *)

Lemma Init_unfold (params : gmap string string) w :
  Init params w =
  match params !! "uri" with
  | None => Some ((None, Some (errors_New "No NFS server URI provided")), w)
  | Some uri =>
      let u := exec_uuidgen (env w) in
      let t1 := trace w ++ [ExecUuidgen] in
      match u.1.2 with
      | Some e =>
          Some ((None, Some (exec_Err e)),
                {| db := db w; env := u.2; trace := t1 |})
      | None =>
          let p := "/mnt/" +:+ TrimSuffix u.1.1 LF in
          let m := os_MkdirAll p 484 u.2 in
          let t2 := t1 ++ [OsMkdirAll p 484] in
          match m.1 with
          | Some errno =>
              Some ((None, Some (os_Err errno)),
                    {| db := db w; env := m.2; trace := t2 |})
          | None =>
              let s := syscall_Mount uri p "tmpfs" 0 "mode=0700,uid=65534"
                         m.2 in
              let t3 :=
                t2 ++ [SyscallMount uri p "tmpfs" 0 "mode=0700,uid=65534"] in
              match s.1 with
              | Some errno =>
                  Some ((None, Some (os_Err errno)),
                        {| db := db w; env := (os_Remove p s.2).2;
                           trace := t3 ++ [OsRemove p] |})
              | None =>
                  Some ((Some {| nfsServer := uri; mntPath := p |}, None),
                        {| db := db w; env := s.2; trace := t3 |})
              end
          end
      end
  end.
Proof.
  unfold Init, call, mbind, M_bind, mret, M_ret.
  destruct (params !! "uri") as [uri|]; [|reflexivity].
  destruct (exec_uuidgen (env w)) as [[out [e|]] e1]; simpl; [reflexivity|].
  destruct (os_MkdirAll _ _ _) as [[errno|] e2]; simpl; [reflexivity|].
  destruct (syscall_Mount _ _ _ _ _ _) as [[errno|] e3]; simpl; [|reflexivity].
  destruct (os_Remove _ _) as [r e4]; reflexivity.
Qed.

(** X3.  Without a [uri] among the parameters, [Init] fails with the
    message [No NFS server URI provided] before it calls the host: the
    world is untouched, no identifier is drawn and no directory made.
    [Init] gives that error in no other case. *)
Theorem Init_no_uri (params : gmap string string) w :
  (params !! "uri" = None ->
   Init params w
   = Some ((None, Some (errors_New "No NFS server URI provided")), w)) /\
  (forall r w',
      Init params w = Some (r, w') ->
      r.2 = Some (errors_New "No NFS server URI provided") ->
      params !! "uri" = None /\ r.1 = None /\ w' = w).
Proof.
  rewrite Init_unfold. split.
  - now intros ->.
  - intros r w'.
    destruct (params !! "uri") as [uri|]; [|now intros [= <- <-]]. simpl.
    destruct (exec_uuidgen (env w)).1.2; [now intros [= <- <-]|].
    destruct (os_MkdirAll _ _ _).1; [now intros [= <- <-]|].
    destruct (syscall_Mount _ _ _ _ _ _).1; now intros [= <- <-].
Qed.

(** X4.  [Init] never panics, never touches the store, and returns
    either a driver and no error or an error and no driver. *)
Theorem Init_driver_or_error (params : gmap string string) w :
  exists r w',
    Init params w = Some (r, w') /\ db w' = db w /\
    ((exists d, r = (Some d, None)) \/ (exists e, r = (None, Some e))).
Proof.
  rewrite Init_unfold.
  destruct (params !! "uri") as [uri|]; [|eauto 7]. simpl.
  destruct (exec_uuidgen (env w)).1.2; [eauto 7|].
  destruct (os_MkdirAll _ _ _).1; [eauto 7|].
  destruct (syscall_Mount _ _ _ _ _ _).1; eauto 7.
Qed.

(** X5.  When [Init] returns a driver, its server is the [uri] parameter,
    its mount path is [/mnt/] followed by the output of [uuidgen] less the
    final line feed, and the host was asked exactly three things, in this
    order: the identifier, the directory of the mount path with mode
    0744, and the mount of the server on it. *)
Theorem Init_success (params : gmap string string) d w w' :
  Init params w = Some ((Some d, None), w') ->
  params !! "uri" = Some (nfsServer d) /\
  (exec_uuidgen (env w)).1.2 = None /\
  mntPath d = "/mnt/" +:+ TrimSuffix (exec_uuidgen (env w)).1.1 LF /\
  db w' = db w /\
  trace w' =
    trace w ++
    [ExecUuidgen; OsMkdirAll (mntPath d) 484;
     SyscallMount (nfsServer d) (mntPath d) "tmpfs" 0 "mode=0700,uid=65534"].
Proof.
  rewrite Init_unfold.
  destruct (params !! "uri") as [uri|]; [|discriminate]. simpl.
  destruct (exec_uuidgen (env w)).1.2; [discriminate|].
  destruct (os_MkdirAll _ _ _).1; [discriminate|].
  destruct (syscall_Mount _ _ _ _ _ _).1; [discriminate|].
  intros [= <- <-]. simpl. repeat split. now rewrite <- !app_assoc.
Qed.

(** X6.  When the mount of the server fails, [Init] removes the directory
    it has just made and returns the error of the mount and no driver,
    whatever the removal answers. *)
Theorem Init_mount_failure (params : gmap string string) (uri : string) w
    (errno : Errno) :
  let u := exec_uuidgen (env w) in
  let p := "/mnt/" +:+ TrimSuffix u.1.1 LF in
  let m := os_MkdirAll p 484 u.2 in
  params !! "uri" = Some uri ->
  u.1.2 = None ->
  m.1 = None ->
  (syscall_Mount uri p "tmpfs" 0 "mode=0700,uid=65534" m.2).1 = Some errno ->
  exists w',
    Init params w = Some ((None, Some (os_Err errno)), w') /\
    db w' = db w /\
    trace w' =
      trace w ++
      [ExecUuidgen; OsMkdirAll p 484;
       SyscallMount uri p "tmpfs" 0 "mode=0700,uid=65534"; OsRemove p].
Proof.
  intros u p m Huri Hu Hm Hs. subst u p m.
  rewrite Init_unfold, Huri. simpl. rewrite Hu, Hm, Hs.
  eexists. split; [reflexivity|]. simpl. split; [reflexivity|].
  now rewrite <- !app_assoc.
Qed.

(** *** Create *)

Lemma Create_unfold {CreateOptions : Type} d (l : api.VolumeLocator)
    (opt : option CreateOptions) (spec : option api.VolumeSpec) w :
  Create d l opt spec w =
  let u := exec_uuidgen (env w) in
  let t1 := trace w ++ [ExecUuidgen] in
  match u.1.2 with
  | Some e =>
      Some (("", Some (exec_Err e)), {| db := db w; env := u.2; trace := t1 |})
  | None =>
      let volumeID := TrimSuffix u.1.1 LF in
      let m := os_MkdirAll (mntPath d +:+ volumeID) 484 u.2 in
      let w2 := {| db := db w; env := m.2;
                   trace := t1 ++ [OsMkdirAll (mntPath d +:+ volumeID) 484] |} in
      match m.1 with
      | Some errno => Some (("", Some (os_Err errno)), w2)
      | None =>
          match spec with
          | None => None
          | Some s =>
              match put d volumeID
                      {| nfs.spec := s; formatted := false; attached := false;
                         mounted := false; device := mntPath d +:+ volumeID;
                         mountpath := "" |} w2 with
              | Some (err, w3) => Some ((volumeID, err), w3)
              | None => None
              end
          end
      end
  end.
Proof.
  unfold Create, call, mbind, M_bind, mret, M_ret.
  destruct (exec_uuidgen (env w)) as [[out [e|]] e1]; simpl; [reflexivity|].
  destruct (os_MkdirAll _ _ _) as [[errno|] e2]; simpl; [reflexivity|].
  destruct spec as [s|]; reflexivity.
Qed.

(** X7.  When [uuidgen] prints an identifier and a line feed, the
    directory can be made and the store serves the [put], [Create]
    returns that identifier; it has made the directory [mntPath]
    followed by the identifier, with mode 0744, and stored the fresh
    record under the key of the identifier. *)
Theorem Create_success {CreateOptions : Type} d (l : api.VolumeLocator)
    (opt : option CreateOptions) (s : api.VolumeSpec) w
    (volumeID : string) (e1 e2 : Env) :
  let r := {| spec := s; formatted := false; attached := false;
              mounted := false; device := mntPath d +:+ volumeID;
              mountpath := "" |} in
  exec_uuidgen (env w) = ((volumeID +:+ LF, None), e1) ->
  os_MkdirAll (mntPath d +:+ volumeID) 484 e1 = (None, e2) ->
  (kvdb_fault e2).1 = None ->
  exists w',
    Create d l opt (Some s) w = Some ((volumeID, None), w') /\
    db w' = <[NfsDBKey +:+ "/" +:+ volumeID := r]> (db w) /\
    trace w' =
      trace w ++
      [ExecUuidgen; OsMkdirAll (mntPath d +:+ volumeID) 484;
       KvPut (NfsDBKey +:+ "/" +:+ volumeID) r 0].
Proof.
  intros r Hu Hm Hf. subst r. rewrite Create_unfold, Hu. simpl.
  rewrite TrimSuffix_append, Hm. simpl. rewrite put_unfold. simpl.
  rewrite Hf. eexists. split; [reflexivity|]. simpl.
  split; [reflexivity|]. now rewrite <- !app_assoc.
Qed.

(** X8.  A [Create] that returns an error has stored nothing, and has
    removed nothing it made.  Either [uuidgen] failed, or the directory
    could not be made, and the ID returned is empty; or the store
    refused the [put]: then the new ID is returned along with the error,
    and the directory made for it stays. *)
Theorem Create_error {CreateOptions : Type} d (l : api.VolumeLocator)
    (opt : option CreateOptions) (spec : option api.VolumeSpec) w
    (volumeID : string) (e : error) w' :
  Create d l opt spec w = Some ((volumeID, Some e), w') ->
  let new := TrimSuffix (exec_uuidgen (env w)).1.1 LF in
  db w' = db w /\
  ((volumeID = "" /\ (exists msg, e = exec_Err msg) /\
    trace w' = trace w ++ [ExecUuidgen]) \/
   (volumeID = "" /\ (exists errno, e = os_Err errno) /\
    trace w' = trace w ++ [ExecUuidgen; OsMkdirAll (mntPath d +:+ new) 484]) \/
   (volumeID = new /\ (exists msg, e = kvdb_Err msg) /\
    exists r,
      trace w' =
        trace w ++
        [ExecUuidgen; OsMkdirAll (mntPath d +:+ new) 484;
         KvPut (NfsDBKey +:+ "/" +:+ new) r 0])).
Proof.
  rewrite Create_unfold. simpl.
  destruct (exec_uuidgen (env w)).1.2 as [msg|].
  { intros [= <- <- <-]. simpl. split; [reflexivity|]. left. eauto. }
  destruct (os_MkdirAll _ _ _).1 as [errno|].
  { intros [= <- <- <-]. simpl. split; [reflexivity|]. right. left.
    split; [reflexivity|]. split; [eauto|]. now rewrite <- !app_assoc. }
  destruct spec as [s|]; [|discriminate].
  rewrite put_unfold. simpl.
  destruct (kvdb_fault _).1 as [msg|]; [|discriminate].
  intros [= <- <- <-]. simpl. split; [reflexivity|]. right. right.
  split; [reflexivity|]. split; [eauto|]. eexists. now rewrite <- !app_assoc.
Qed.

(** X9.  For a driver that [Init] has built, the device of a volume that
    [Create] makes is [/mnt/], the identifier of the driver and the
    identifier of the volume, one after the other with no separator
    between the two. *)
Theorem Init_Create_device {CreateOptions : Type} (params : gmap string string)
    d (l : api.VolumeLocator) (opt : option CreateOptions)
    (spec : option api.VolumeSpec) (volumeID : string) w w1 w2 :
  Init params w = Some ((Some d, None), w1) ->
  Create d l opt spec w1 = Some ((volumeID, None), w2) ->
  exists r : awsVolume,
    db w2 !! (NfsDBKey +:+ "/" +:+ volumeID) = Some r /\
    volumeID = TrimSuffix (exec_uuidgen (env w1)).1.1 LF /\
    device r =
      "/mnt/" +:+ TrimSuffix (exec_uuidgen (env w)).1.1 LF +:+ volumeID.
Proof.
  rewrite Init_unfold.
  destruct (params !! "uri") as [uri|]; [|discriminate]. simpl.
  destruct (exec_uuidgen (env w)).1.2; [discriminate|].
  destruct (os_MkdirAll _ _ _).1; [discriminate|].
  destruct (syscall_Mount _ _ _ _ _ _).1; [discriminate|].
  intros [= <- <-]. rewrite Create_unfold. simpl.
  destruct (exec_uuidgen _).1.2; [discriminate|].
  destruct (os_MkdirAll _ _ _).1; [discriminate|].
  destruct spec as [s|]; [|discriminate].
  destruct (put _ _ _ _) as [[err w3]|] eqn:Hput; [|discriminate].
  intros [= <- -> <-]. apply put_stored in Hput.
  eexists. split; [rewrite Hput; apply lookup_insert_eq|].
  split; [reflexivity|]. simpl. now rewrite append_assoc.
Qed.

(** *** Mount and Unmount *)

(** X10.  [Mount] returns [nil] exactly when the store serves the lookup
    and holds a record for the volume, the operating system accepts the
    mount of the record's device on the target with the format of the
    record's spec, and the store serves the [put] that follows. *)
Theorem Mount_success_iff d volumeID target w :
  (exists w', Mount d volumeID target w = Some (None, w')) <->
  exists v,
    (kvdb_fault (env w)).1 = None /\
    db w !! (NfsDBKey +:+ "/" +:+ volumeID) = Some v /\
    let m := syscall_Mount (device v) target (api.Format (spec v)) 0 ""
               (kvdb_fault (env w)).2 in
    m.1 = None /\ (kvdb_fault m.2).1 = None.
Proof.
  rewrite Mount_unfold. split.
  - intros [w' H].
    destruct (get d volumeID w) as [[[v [e|]] w1]|] eqn:Hget;
      [discriminate| |discriminate].
    apply get_found in Hget as (Hv & Hf & ->). simpl in H.
    exists v. split; [exact Hf|]. split; [exact Hv|]. simpl.
    destruct (syscall_Mount _ _ _ _ _ _).1; [discriminate|].
    split; [reflexivity|]. rewrite put_unfold in H. simpl in H.
    destruct (kvdb_fault (syscall_Mount _ _ _ _ _ _).2).1;
      [discriminate H | reflexivity].
  - intros (v & Hf & Hv & Hm & Hp). simpl in Hm, Hp.
    rewrite (get_present d volumeID w v Hv Hf). simpl. rewrite Hm.
    rewrite put_unfold. simpl. rewrite Hp. eexists. reflexivity.
Qed.

(** X11.  When the lookup found the record and the operating system
    refuses to unmount its mountpath, [Unmount] returns that error and
    the store is as it was: the record still says mounted where it did. *)
Theorem Unmount_syscall_failure d volumeID mountpath w v w1 errno e2 :
  get d volumeID w = Some ((v, None), w1) ->
  syscall_Unmount (nfs.mountpath v) 0 (env w1) = (Some errno, e2) ->
  exists w',
    Unmount d volumeID mountpath w = Some (Some (os_Err errno), w') /\
    db w' = db w /\
    db w' !! (NfsDBKey +:+ "/" +:+ volumeID) = Some v /\
    trace w' =
      trace w ++
      [KvGetVal (NfsDBKey +:+ "/" +:+ volumeID);
       SyscallUnmount (nfs.mountpath v) 0].
Proof.
  intros Hget Hsys. rewrite Unmount_unfold, Hget. simpl. rewrite Hsys. simpl.
  apply get_found in Hget as (Hv & _ & ->). simpl.
  eexists. split; [reflexivity|]. simpl.
  split; [reflexivity|]. split; [exact Hv|]. now rewrite <- app_assoc.
Qed.

(** X12.  When the mount has been made and the store then refuses the
    [put], [Mount] returns the error of the store; the record is not
    updated, and the mount is left in place: no unmount is asked for. *)
Theorem Mount_put_failure d volumeID target w v w1 e2 msg :
  let v' := set_mounted true (set_mountpath target v) in
  get d volumeID w = Some ((v, None), w1) ->
  syscall_Mount (device v) target (api.Format (spec v)) 0 "" (env w1)
    = (None, e2) ->
  (kvdb_fault e2).1 = Some msg ->
  exists w',
    Mount d volumeID target w = Some (Some (kvdb_Err msg), w') /\
    db w' = db w /\
    db w' !! (NfsDBKey +:+ "/" +:+ volumeID) = Some v /\
    trace w' =
      trace w ++
      [KvGetVal (NfsDBKey +:+ "/" +:+ volumeID);
       SyscallMount (device v) target (api.Format (spec v)) 0 "";
       KvPut (NfsDBKey +:+ "/" +:+ volumeID) v' 0].
Proof.
  intros v' Hget Hsys Hf. subst v'.
  rewrite Mount_unfold, Hget. simpl. rewrite Hsys. simpl.
  rewrite put_unfold. simpl. rewrite Hf.
  apply get_found in Hget as (Hv & _ & ->). simpl.
  eexists. split; [reflexivity|]. simpl.
  split; [reflexivity|]. split; [exact Hv|]. now rewrite <- !app_assoc.
Qed.

(** X13.  Likewise for [Unmount]: when the unmount has been made and the
    store then refuses the [put], [Unmount] returns the error of the
    store and the record still says mounted, at the path that is no
    longer a mount point. *)
Theorem Unmount_put_failure d volumeID mountpath w v w1 e2 msg :
  let v' := set_mounted false (set_mountpath "" v) in
  get d volumeID w = Some ((v, None), w1) ->
  syscall_Unmount (nfs.mountpath v) 0 (env w1) = (None, e2) ->
  (kvdb_fault e2).1 = Some msg ->
  exists w',
    Unmount d volumeID mountpath w = Some (Some (kvdb_Err msg), w') /\
    db w' = db w /\
    db w' !! (NfsDBKey +:+ "/" +:+ volumeID) = Some v /\
    trace w' =
      trace w ++
      [KvGetVal (NfsDBKey +:+ "/" +:+ volumeID);
       SyscallUnmount (nfs.mountpath v) 0;
       KvPut (NfsDBKey +:+ "/" +:+ volumeID) v' 0].
Proof.
  intros v' Hget Hsys Hf. subst v'.
  rewrite Unmount_unfold, Hget. simpl. rewrite Hsys. simpl.
  rewrite put_unfold. simpl. rewrite Hf.
  apply get_found in Hget as (Hv & _ & ->). simpl.
  eexists. split; [reflexivity|]. simpl.
  split; [reflexivity|]. split; [exact Hv|]. now rewrite <- !app_assoc.
Qed.

(** A record that is not mounted and has no mountpath is what unmounting
    makes of it. *)
Lemma unmounted_fixed v :
  mounted v = false -> nfs.mountpath v = "" ->
  set_mounted false (set_mountpath "" v) = v.
Proof. destruct v; simpl; now intros -> ->. Qed.

(** X14.  A successful [Mount] at a target followed by a successful
    [Unmount], whatever path [Unmount] is given, unmounts that target
    and leaves the record as it was before the [Mount] but for [mounted],
    now false, and [mountpath], now empty; if the record was not mounted
    before, the store is back to what it was. *)
Theorem Mount_Unmount_roundtrip d volumeID target mountpath w w1 w2 :
  Mount d volumeID target w = Some (None, w1) ->
  Unmount d volumeID mountpath w1 = Some (None, w2) ->
  exists v : awsVolume,
    db w !! (NfsDBKey +:+ "/" +:+ volumeID) = Some v /\
    db w2 =
      <[NfsDBKey +:+ "/" +:+ volumeID :=
          set_mounted false (set_mountpath "" v)]> (db w) /\
    trace w2 =
      trace w1 ++
      [KvGetVal (NfsDBKey +:+ "/" +:+ volumeID);
       SyscallUnmount target 0;
       KvPut (NfsDBKey +:+ "/" +:+ volumeID)
         (set_mounted false (set_mountpath "" v)) 0] /\
    (mounted v = false -> nfs.mountpath v = "" -> db w2 = db w).
Proof.
  rewrite Mount_unfold.
  destruct (get d volumeID w) as [[[v [e|]] w0]|] eqn:Hget;
    [discriminate| |discriminate].
  apply get_found in Hget as (Hv & _ & ->). simpl.
  destruct (syscall_Mount _ _ _ _ _ _).1; [discriminate|].
  intros Hput1%put_stored. simpl in Hput1.
  rewrite Unmount_unfold.
  destruct (get d volumeID w1) as [[[v1 [e|]] w1']|] eqn:Hget1;
    [discriminate| |discriminate].
  apply get_found in Hget1 as (Hv1 & _ & ->). simpl.
  rewrite Hput1, lookup_insert_eq in Hv1. injection Hv1 as <-. simpl.
  destruct (syscall_Unmount _ _ _).1; [discriminate|].
  rewrite put_unfold. simpl.
  destruct (kvdb_fault _).1; [discriminate|]. intros [= <-]. simpl.
  assert (Hdb : <[NfsDBKey +:+ "/" +:+ volumeID :=
                    set_mounted false (set_mountpath "" v)]> (db w1)
                = <[NfsDBKey +:+ "/" +:+ volumeID :=
                    set_mounted false (set_mountpath "" v)]> (db w)).
  { rewrite Hput1. apply insert_insert_eq. }
  exists v. split; [exact Hv|]. split; [exact Hdb|].
  split; [now rewrite <- !app_assoc|].
  intros Hm Hp. etransitivity; [exact Hdb|].
  rewrite (unmounted_fixed v Hm Hp). now apply insert_id.
Qed.

(** X15.  [Mount], [Unmount] and [Delete] of one volume never panic and
    leave the record, or the absence, of every other volume ID as it
    was. *)
Theorem other_volumes_untouched d volumeID volumeID' mountpath w :
  volumeID' <> volumeID ->
  (exists r w', Mount d volumeID mountpath w = Some (r, w') /\
     db w' !! (NfsDBKey +:+ "/" +:+ volumeID') =
     db w !! (NfsDBKey +:+ "/" +:+ volumeID')) /\
  (exists r w', Unmount d volumeID mountpath w = Some (r, w') /\
     db w' !! (NfsDBKey +:+ "/" +:+ volumeID') =
     db w !! (NfsDBKey +:+ "/" +:+ volumeID')) /\
  (exists r w', Delete d volumeID w = Some (r, w') /\
     db w' !! (NfsDBKey +:+ "/" +:+ volumeID') =
     db w !! (NfsDBKey +:+ "/" +:+ volumeID')).
Proof.
  intros Hne%key_ne.
  assert (Hget : exists r w1, get d volumeID w = Some (r, w1) /\ db w1 = db w).
  { destruct (get_not_found d volumeID w) as (r & w1 & H & Hdb & _).
    eauto. }
  destruct Hget as ([v [e|]] & w1 & Hget & Hdb).
  { rewrite Mount_unfold, Unmount_unfold, Delete_unfold, Hget.
    repeat split; eexists _, _; (split; [reflexivity|]); now rewrite Hdb. }
  rewrite Mount_unfold, Unmount_unfold, Delete_unfold, Hget. simpl.
  split; [|split].
  - destruct (syscall_Mount _ _ _ _ _ _).1.
    + eexists _, _. split; [reflexivity|]. simpl. now rewrite Hdb.
    + rewrite put_unfold. simpl.
      destruct (kvdb_fault _).1; eexists _, _; (split; [reflexivity|]);
        simpl; rewrite Hdb; [reflexivity|]. now apply lookup_insert_ne.
  - destruct (syscall_Unmount _ _ _).1.
    + eexists _, _. split; [reflexivity|]. simpl. now rewrite Hdb.
    + rewrite put_unfold. simpl.
      destruct (kvdb_fault _).1; eexists _, _; (split; [reflexivity|]);
        simpl; rewrite Hdb; [reflexivity|]. now apply lookup_insert_ne.
  - destruct (os_Remove _ _).1.
    + eexists _, _. split; [reflexivity|]. simpl. now rewrite Hdb.
    + rewrite del_unfold. simpl.
      destruct (kvdb_fault _).1; [|destruct (db w1 !! _)];
        eexists _, _; (split; [reflexivity|]); simpl; rewrite Hdb;
        try reflexivity. now apply lookup_delete_ne.
Qed.

(** X16.  The calls the three operations make.  Each talks to the store
    about the key of its own volume ID only.  [Mount] asks for nothing
    but a mount on its target, [Unmount] for nothing but an unmount, and
    neither ever deletes a record or touches a directory; [Delete]
    removes a path and nothing else: it never unmounts, even a volume
    whose record says mounted, and never writes a record. *)
Theorem calls_made d volumeID mountpath w :
  let key := NfsDBKey +:+ "/" +:+ volumeID in
  (exists r w' cs,
      Mount d volumeID mountpath w = Some (r, w') /\
      trace w' = trace w ++ cs /\
      Forall (fun c =>
                match c with
                | KvGetVal k => k = key
                | KvPut k _ ttl => k = key /\ ttl = 0
                | SyscallMount _ target _ flags _ =>
                    target = mountpath /\ flags = 0
                | _ => False
                end) cs) /\
  (exists r w' cs,
      Unmount d volumeID mountpath w = Some (r, w') /\
      trace w' = trace w ++ cs /\
      Forall (fun c =>
                match c with
                | KvGetVal k => k = key
                | KvPut k _ ttl => k = key /\ ttl = 0
                | SyscallUnmount _ flags => flags = 0
                | _ => False
                end) cs) /\
  (exists r w' cs,
      Delete d volumeID w = Some (r, w') /\
      trace w' = trace w ++ cs /\
      Forall (fun c =>
                match c with
                | KvGetVal k | KvDelete k => k = key
                | OsRemove _ => True
                | _ => False
                end) cs).
Proof.
  intros key. subst key.
  rewrite Mount_unfold, Unmount_unfold, Delete_unfold, get_unfold. simpl.
  destruct (kvdb_fault (env w)).1 as [msg|].
  { repeat split; eexists _, _, [_]; (split; [reflexivity|]);
      (split; [reflexivity|]); now repeat constructor. }
  destruct (db w !! _) as [v|].
  2:{ repeat split; eexists _, _, [_]; (split; [reflexivity|]);
        (split; [reflexivity|]); now repeat constructor. }
  simpl. split; [|split].
  - destruct (syscall_Mount _ _ _ _ _ _).1.
    + eexists _, _, [_; _]. split; [reflexivity|]. simpl.
      split; [now rewrite <- app_assoc|]. now repeat constructor.
    + rewrite put_unfold. simpl.
      destruct (kvdb_fault _).1; eexists _, _, [_; _; _];
        (split; [reflexivity|]); simpl;
        (split; [now rewrite <- !app_assoc|]); now repeat constructor.
  - destruct (syscall_Unmount _ _ _).1.
    + eexists _, _, [_; _]. split; [reflexivity|]. simpl.
      split; [now rewrite <- app_assoc|]. now repeat constructor.
    + rewrite put_unfold. simpl.
      destruct (kvdb_fault _).1; eexists _, _, [_; _; _];
        (split; [reflexivity|]); simpl;
        (split; [now rewrite <- !app_assoc|]); now repeat constructor.
  - destruct (os_Remove _ _).1.
    + eexists _, _, [_; _]. split; [reflexivity|]. simpl.
      split; [now rewrite <- app_assoc|]. now repeat constructor.
    + rewrite del_unfold. simpl.
      destruct (kvdb_fault _).1; [|destruct (db w !! _)];
        eexists _, _, [_; _; _];
        (split; [reflexivity|]); simpl;
        (split; [now rewrite <- !app_assoc|]); now repeat constructor.
Qed.

(** *** Delete *)

(** A lookup that the store serves and that finds nothing. *)
Lemma get_absent d volumeID w :
  (kvdb_fault (env w)).1 = None ->
  db w !! (NfsDBKey +:+ "/" +:+ volumeID) = None ->
  get d volumeID w =
  Some ((awsVolume_zero, Some kvdb_ErrNotFound),
        {| db := db w; env := (kvdb_fault (env w)).2;
           trace := trace w ++ [KvGetVal (NfsDBKey +:+ "/" +:+ volumeID)] |}).
Proof. intros Hf Hv. rewrite get_unfold. simpl. now rewrite Hf, Hv. Qed.

(** X17.  When the lookup finds the record, the directory is removed and
    the store serves the deletion, [Delete] returns [nil] and the record
    is gone for good: as long as the store answers, every later [Mount],
    [Unmount] and [Delete] of that volume ID fails with the store's
    not-found error. *)
Theorem Delete_finality d volumeID w v w1 e2 :
  get d volumeID w = Some ((v, None), w1) ->
  os_Remove (device v) (env w1) = (None, e2) ->
  (kvdb_fault e2).1 = None ->
  exists w',
    Delete d volumeID w = Some (None, w') /\
    db w' = delete (NfsDBKey +:+ "/" +:+ volumeID) (db w) /\
    trace w' =
      trace w ++
      [KvGetVal (NfsDBKey +:+ "/" +:+ volumeID); OsRemove (device v);
       KvDelete (NfsDBKey +:+ "/" +:+ volumeID)] /\
    forall w2,
      db w2 = db w' -> (kvdb_fault (env w2)).1 = None ->
      forall mountpath : string,
        (exists w3, Mount d volumeID mountpath w2
                    = Some (Some kvdb_ErrNotFound, w3)) /\
        (exists w3, Unmount d volumeID mountpath w2
                    = Some (Some kvdb_ErrNotFound, w3)) /\
        (exists w3, Delete d volumeID w2 = Some (Some kvdb_ErrNotFound, w3)).
Proof.
  intros Hget Hrm Hf. rewrite Delete_unfold, Hget. simpl. rewrite Hrm. simpl.
  rewrite del_unfold. simpl. rewrite Hf.
  apply get_found in Hget as (Hv & _ & ->). simpl. rewrite Hv.
  eexists. split; [reflexivity|]. simpl. split; [reflexivity|].
  split; [now rewrite <- !app_assoc|].
  intros w2 Hdb Hserved mountpath.
  assert (Habs : db w2 !! (NfsDBKey +:+ "/" +:+ volumeID) = None)
    by (rewrite Hdb; apply lookup_delete_eq).
  rewrite Mount_unfold, Unmount_unfold, Delete_unfold.
  rewrite (get_absent d volumeID w2 Hserved Habs).
  split; [|split]; eexists; reflexivity.
Qed.

(** X18.  [Delete] does not look at what the store answers to the
    deletion: when the directory is removed and the store then fails,
    [Delete] still returns [nil], and the record of the volume is still
    stored. *)
Theorem Delete_hides_store_failure d volumeID w v w1 e2 msg :
  get d volumeID w = Some ((v, None), w1) ->
  os_Remove (device v) (env w1) = (None, e2) ->
  (kvdb_fault e2).1 = Some msg ->
  exists w',
    Delete d volumeID w = Some (None, w') /\
    db w' = db w /\
    db w' !! (NfsDBKey +:+ "/" +:+ volumeID) = Some v /\
    trace w' =
      trace w ++
      [KvGetVal (NfsDBKey +:+ "/" +:+ volumeID); OsRemove (device v);
       KvDelete (NfsDBKey +:+ "/" +:+ volumeID)].
Proof.
  intros Hget Hrm Hf. rewrite Delete_unfold, Hget. simpl. rewrite Hrm. simpl.
  rewrite del_unfold. simpl. rewrite Hf.
  apply get_found in Hget as (Hv & _ & ->). simpl.
  eexists. split; [reflexivity|]. simpl. split; [reflexivity|].
  split; [exact Hv|]. now rewrite <- !app_assoc.
Qed.

End Driver.

End nfsMore.

(** ** More on the error kinds *)

Module errorsMore.

Import GoStrings GoStringsFacts errors.

(** The character at a position past a prefix is the character of what
    follows the prefix. *)
Lemma get_past_prefix (pre s : string) (n : nat) :
  String.get (String.length pre + n) (pre +:+ s) = String.get n s.
Proof.
  rewrite Nat.add_comm. symmetry. apply String.append_correct2.
Qed.

(** X19.  The messages of [ErrNotFound] and [ErrExists] both name the kind
    of the object and its identifier, and no message of the one is ever a
    message of the other: they end differently. *)
Theorem NotFound_Exists_messages (e : ErrNotFound) (e' : ErrExists) :
  Contains (ErrNotFound_Error e) (NotFound_Type e) /\
  Contains (ErrNotFound_Error e) (NotFound_ID e) /\
  Contains (ErrExists_Error e') (Exists_Type e') /\
  Contains (ErrExists_Error e') (Exists_ID e') /\
  ErrNotFound_Error e <> ErrExists_Error e'.
Proof.
  unfold ErrNotFound_Error, ErrExists_Error.
  split; [|split; [|split; [|split]]].
  - exists "", (" with ID: " +:+ NotFound_ID e +:+ " not found").
    now rewrite append_nil_l.
  - exists (NotFound_Type e +:+ " with ID: "), " not found".
    now rewrite append_assoc.
  - exists "", (" with ID: " +:+ Exists_ID e' +:+ " already exists").
    now rewrite append_nil_l.
  - exists (Exists_Type e' +:+ " with ID: "), " already exists".
    now rewrite append_assoc.
  - intros H.
    rewrite <- (append_assoc _ " with ID: " (NotFound_ID e +:+ _)) in H.
    rewrite <- (append_assoc _ (NotFound_ID e) " not found") in H.
    rewrite <- (append_assoc _ " with ID: " (Exists_ID e' +:+ _)) in H.
    rewrite <- (append_assoc _ (Exists_ID e') " already exists") in H.
    set (p := (NotFound_Type e +:+ " with ID: ") +:+ NotFound_ID e) in H.
    set (q := (Exists_Type e' +:+ " with ID: ") +:+ Exists_ID e') in H.
    assert (Hlen : (String.length p + 9 = String.length q + 14)%nat).
    { apply (f_equal String.length) in H. rewrite !length_append in H.
      simpl in H. lia. }
    assert (Hd : String.get (String.length p + 9) (p +:+ " not found")
                 = String.get 9 " not found") by apply get_past_prefix.
    assert (Hs : String.get (String.length q + 14) (q +:+ " already exists")
                 = String.get 14 " already exists") by apply get_past_prefix.
    rewrite H, Hlen, Hs in Hd. discriminate Hd.
Qed.

(** X20.  Two [ErrNotFound] values that agree on the kind, or on the
    identifier, and render the same message are the same value; likewise
    for [ErrExists]. *)
Theorem Error_determines_object :
  (forall e1 e2 : ErrNotFound,
      NotFound_Type e1 = NotFound_Type e2 \/ NotFound_ID e1 = NotFound_ID e2 ->
      ErrNotFound_Error e1 = ErrNotFound_Error e2 -> e1 = e2) /\
  (forall e1 e2 : ErrExists,
      Exists_Type e1 = Exists_Type e2 \/ Exists_ID e1 = Exists_ID e2 ->
      ErrExists_Error e1 = ErrExists_Error e2 -> e1 = e2).
Proof.
  split.
  - intros [i1 t1] [i2 t2]. unfold ErrNotFound_Error. simpl.
    intros [-> | ->] H.
    + do 2 apply String.app_inj in H. now apply append_inv_tail in H as ->.
    + now apply append_inv_tail in H as ->.
  - intros [i1 t1] [i2 t2]. unfold ErrExists_Error. simpl.
    intros [-> | ->] H.
    + do 2 apply String.app_inj in H. now apply append_inv_tail in H as ->.
    + now apply append_inv_tail in H as ->.
Qed.

(** Agreement on a field is needed: the separator of the message may also
    occur in the fields. *)
Remark Error_not_injective :
  ErrNotFound_Error {| NotFound_ID := "z"; NotFound_Type := "x with ID: y" |}
  = ErrNotFound_Error {| NotFound_ID := "y with ID: z"; NotFound_Type := "x" |}.
Proof. reflexivity. Qed.

(** X21.  [Error] renders a message exactly for the resize-in-progress
    errors that have a pool.  The message starts with the sentence that
    names the pool; what follows is a space, the message of the last
    operation, a space and its parameters when that operation is a
    resize, and nothing at all otherwise. *)
Theorem ResizeInProgress_message_form
    (OPERATION_RESIZE : Z) (e : ErrStoragePoolResizeInProgress) :
  (is_Some (ErrStoragePoolResizeInProgress_Error OPERATION_RESIZE e)
   <-> is_Some (Pool e)) /\
  forall p : api.StoragePool,
    Pool e = Some p ->
    exists suffix : string,
      ErrStoragePoolResizeInProgress_Error OPERATION_RESIZE e =
      Some (("a resize for pool: " +:+ api.Uuid p +:+
             " is already in progress.") +:+ suffix) /\
      ((exists op,
           api.LastOperation p = Some op /\
           api.Type_ op = OPERATION_RESIZE /\
           suffix = " " +:+ api.Msg op +:+ " " +:+ api.Params op) \/
       ((forall op, api.LastOperation p = Some op ->
                    api.Type_ op <> OPERATION_RESIZE) /\
        suffix = "")).
Proof.
  destruct e as [[p|]]; unfold ErrStoragePoolResizeInProgress_Error; simpl.
  - split.
    + split; [eauto|]. intros _.
      destruct (api.LastOperation p) as [op|]; [|eauto].
      destruct (Z.eqb _ _); eauto.
    + intros p' [= <-].
      destruct (api.LastOperation p) as [op|] eqn:Hop.
      * destruct (Z.eqb_spec (api.Type_ op) OPERATION_RESIZE) as [E|NE].
        -- exists (" " +:+ api.Msg op +:+ " " +:+ api.Params op).
           split; [reflexivity|]. left. eauto.
        -- exists "". split; [now rewrite append_nil_r|]. right.
           split; [|reflexivity]. now intros op' [= <-].
      * exists "". split; [now rewrite append_nil_r|]. right.
        split; [|reflexivity]. intros op' [=].
  - split; [|intros p [=]].
    split; intros [x [=]].
Qed.

End errorsMore.

(** ** The further properties at work *)

Module moreWitnesses.

Import GoStrings nfs sim script nfsFacts nfsMore errorsMore.

Lemma put_get_roundtrip_witness :
  exists w1' w2 : World SimEnv,
    put d0 "vol1" rec2 w1 = Some (None, w1') /\
    get d0 "vol1" w1' = Some ((rec2, None), w2).
Proof.
  pose (w1' := {| db := {[ key1 := rec2 ]}; env := env1;
                  trace := trace1 ++ [KvPut key1 rec2 0] |}).
  assert (Hput : put d0 "vol1" rec2 w1 = Some (None, w1'))
    by (vm_compute; reflexivity).
  destruct (put_get_roundtrip d0 "vol1" rec2 w1 w1' Hput)
    as [(w2 & H & _) _]; [vm_compute; reflexivity|].
  exists w1', w2. split; assumption.
Defined.

Lemma del_get_not_found_witness :
  exists w1' : World SimEnv,
    del d0 "vol1" w1 = Some (tt, w1') /\
    db w1' !! (NfsDBKey +:+ "/" +:+ "vol1") = None.
Proof.
  destruct (del_get_not_found d0 "vol1" w1) as (w1' & H & Hnone & _);
    [vm_compute; reflexivity|].
  exists w1'. split; assumption.
Defined.

Lemma Init_no_uri_witness :
  Init ∅ w0
  = Some ((None, Some (errors_New "No NFS server URI provided")), w0).
Proof. apply (proj1 (Init_no_uri ∅ w0)). vm_compute; reflexivity. Defined.

Lemma Init_success_witness :
  params0 !! "uri" = Some (nfsServer d0) /\
  mntPath d0 = "/mnt/" +:+ TrimSuffix (exec_uuidgen (env w0)).1.1 LF.
Proof.
  destruct (Init_success params0 d0 w0 w_init) as (H1 & _ & H2 & _);
    [vm_compute; reflexivity|].
  split; assumption.
Defined.

Lemma Init_mount_failure_witness :
  exists w' : World (list Answer),
    Init params0
      (scripted_empty [Uuidgen ("host" +:+ LF) None; Os None; Os (Some EIO);
                       Os (Some ENOENT)])
    = Some ((None, Some (os_Err EIO)), w') /\
    trace w' =
      [ExecUuidgen; OsMkdirAll "/mnt/host" 484;
       SyscallMount "server:/export" "/mnt/host" "tmpfs" 0
         "mode=0700,uid=65534";
       OsRemove "/mnt/host"].
Proof.
  destruct (Init_mount_failure params0 "server:/export"
              (scripted_empty [Uuidgen ("host" +:+ LF) None; Os None;
                               Os (Some EIO); Os (Some ENOENT)]) EIO)
    as (w' & H & _ & Ht); try (vm_compute; reflexivity).
  exists w'. split; [exact H|exact Ht].
Defined.

Lemma Create_success_witness :
  exists w' : World SimEnv,
    Create (CreateOptions := unit) d0 l0 None (Some spec0) w_init
    = Some (("vol1", None), w') /\
    db w' = <[NfsDBKey +:+ "/" +:+ "vol1" := rec1]> (db w_init).
Proof.
  destruct (Create_success (CreateOptions := unit) d0 l0 None spec0 w_init
              "vol1" (env w1_uuid) env1)
    as (w' & H & Hdb & _); try (vm_compute; reflexivity).
  exists w'. split; [exact H|exact Hdb].
Defined.

Lemma Create_error_witness :
  exists w' : World (list Answer),
    Create (CreateOptions := unit) d0 l0 None (Some spec0)
      (scripted_empty [Uuidgen ("vol1" +:+ LF) None; Os None;
                       Store (Some "connection refused")])
    = Some (("vol1", Some (kvdb_Err "connection refused")), w') /\
    db w' = ∅.
Proof.
  pose (w := scripted_empty [Uuidgen ("vol1" +:+ LF) None; Os None;
                             Store (Some "connection refused")]).
  pose (w' := {| db := (∅ : gmap string awsVolume); env := ([] : list Answer);
                 trace := [ExecUuidgen; OsMkdirAll "/mnt/hostvol1" 484;
                           KvPut key1 rec1 0] |}).
  assert (H : Create (CreateOptions := unit) d0 l0 None (Some spec0) w
              = Some (("vol1", Some (kvdb_Err "connection refused")), w'))
    by (vm_compute; reflexivity).
  exists w'. split; [exact H|].
  exact (proj1 (Create_error (CreateOptions := unit) d0 l0 None (Some spec0)
                  w "vol1" (kvdb_Err "connection refused") w' H)).
Defined.

Lemma Init_Create_device_witness :
  exists r : awsVolume,
    db w1 !! (NfsDBKey +:+ "/" +:+ "vol1") = Some r /\
    "vol1" = TrimSuffix (exec_uuidgen (env w_init)).1.1 LF /\
    device r = "/mnt/" +:+ TrimSuffix (exec_uuidgen (env w0)).1.1 LF +:+ "vol1".
Proof.
  apply (Init_Create_device (CreateOptions := unit) params0 d0 l0 None
           (Some spec0) "vol1" w0 w_init w1).
  - vm_compute; reflexivity.
  - vm_compute; reflexivity.
Defined.

Lemma Mount_success_iff_witness :
  exists w' : World SimEnv, Mount d0 "vol1" "/mnt/x" w1 = Some (None, w').
Proof.
  apply (proj2 (Mount_success_iff d0 "vol1" "/mnt/x" w1)).
  exists rec1. repeat split; vm_compute; reflexivity.
Defined.

Lemma Unmount_syscall_failure_witness :
  exists w' : World SimEnv,
    Unmount d0 "vol1" "/mnt/x" w1 = Some (Some (os_Err EINVAL), w') /\
    db w' = db w1.
Proof.
  destruct (Unmount_syscall_failure d0 "vol1" "/mnt/x" w1 rec1 (after_get w1)
              EINVAL env1)
    as (w' & H & Hdb & _); try (vm_compute; reflexivity).
  exists w'. split; [exact H|exact Hdb].
Defined.

Lemma Mount_put_failure_witness :
  exists w' : World (list Answer),
    Mount d0 "vol1" "/mnt/x"
      (scripted [Store None; Os None; Store (Some "connection refused")])
    = Some (Some (kvdb_Err "connection refused"), w') /\
    db w' !! (NfsDBKey +:+ "/" +:+ "vol1") = Some rec1.
Proof.
  destruct (Mount_put_failure d0 "vol1" "/mnt/x"
              (scripted [Store None; Os None;
                         Store (Some "connection refused")])
              rec1
              {| db := {[ key1 := rec1 ]};
                 env := [Os None; Store (Some "connection refused")];
                 trace := [KvGetVal key1] |}
              [Store (Some "connection refused")] "connection refused")
    as (w' & H & _ & Hv & _); try (vm_compute; reflexivity).
  exists w'. split; [exact H|exact Hv].
Defined.

Lemma Unmount_put_failure_witness :
  exists w' : World (list Answer),
    Unmount d0 "vol1" "/mnt/x"
      (scripted_mounted [Store None; Os None;
                         Store (Some "connection refused")])
    = Some (Some (kvdb_Err "connection refused"), w') /\
    db w' !! (NfsDBKey +:+ "/" +:+ "vol1") = Some rec2.
Proof.
  destruct (Unmount_put_failure d0 "vol1" "/mnt/x"
              (scripted_mounted [Store None; Os None;
                                 Store (Some "connection refused")])
              rec2
              {| db := {[ key1 := rec2 ]};
                 env := [Os None; Store (Some "connection refused")];
                 trace := [KvGetVal key1] |}
              [Store (Some "connection refused")] "connection refused")
    as (w' & H & _ & Hv & _); try (vm_compute; reflexivity).
  exists w'. split; [exact H|exact Hv].
Defined.

Lemma Mount_Unmount_roundtrip_witness :
  exists v : awsVolume,
    db w1 !! (NfsDBKey +:+ "/" +:+ "vol1") = Some v /\ db w3 = db w1.
Proof.
  destruct (Mount_Unmount_roundtrip d0 "vol1" "/mnt/x" "/somewhere/else"
              w1 w2 w3)
    as (v & Hv & _ & _ & Hback); try (vm_compute; reflexivity).
  exists v. split; [exact Hv|].
  assert (E : v = rec1).
  { assert (H1 : db w1 !! (NfsDBKey +:+ "/" +:+ "vol1") = Some rec1)
      by (vm_compute; reflexivity).
    rewrite H1 in Hv. now injection Hv. }
  apply Hback; rewrite E; reflexivity.
Defined.

Lemma other_volumes_untouched_witness :
  exists (r : option error) (w' : World SimEnv),
    Delete d0 "vol1" w1 = Some (r, w') /\
    db w' !! (NfsDBKey +:+ "/" +:+ "vol2") =
    db w1 !! (NfsDBKey +:+ "/" +:+ "vol2").
Proof.
  apply (other_volumes_untouched d0 "vol1" "vol2" "/mnt/x" w1).
  discriminate.
Defined.

Lemma Delete_finality_witness :
  exists w' : World SimEnv,
    Delete d0 "vol1" w1 = Some (None, w') /\
    db w' = delete (NfsDBKey +:+ "/" +:+ "vol1") (db w1).
Proof.
  destruct (Delete_finality d0 "vol1" w1 rec1 (after_get w1) (env w_crashed))
    as (w' & H & Hdb & _); try (vm_compute; reflexivity).
  exists w'. split; [exact H|exact Hdb].
Defined.

Lemma Delete_hides_store_failure_witness :
  exists w' : World (list Answer),
    Delete d0 "vol1"
      (scripted [Store None; Os None; Store (Some "connection refused")])
    = Some (None, w') /\
    db w' !! (NfsDBKey +:+ "/" +:+ "vol1") = Some rec1.
Proof.
  destruct (Delete_hides_store_failure d0 "vol1"
              (scripted [Store None; Os None;
                         Store (Some "connection refused")])
              rec1
              {| db := {[ key1 := rec1 ]};
                 env := [Os None; Store (Some "connection refused")];
                 trace := [KvGetVal key1] |}
              [Store (Some "connection refused")] "connection refused")
    as (w' & H & _ & Hv & _); try (vm_compute; reflexivity).
  exists w'. split; [exact H|exact Hv].
Defined.

Lemma Error_determines_object_witness :
  errors.ErrNotFound_Error
    {| errors.NotFound_ID := "vol1"; errors.NotFound_Type := "volume" |}
  <> errors.ErrNotFound_Error
       {| errors.NotFound_ID := "vol2"; errors.NotFound_Type := "volume" |}.
Proof.
  intros H.
  apply (proj1 Error_determines_object) in H; [discriminate H|].
  left. reflexivity.
Defined.

Lemma ResizeInProgress_message_form_witness :
  exists suffix : string,
    errors.ErrStoragePoolResizeInProgress_Error 0
      {| errors.Pool :=
           Some {| api.Uuid := "pool-1"; api.LastOperation := None |} |}
    = Some (("a resize for pool: " +:+ "pool-1" +:+
             " is already in progress.") +:+ suffix).
Proof.
  destruct (proj2 (ResizeInProgress_message_form 0
                     {| errors.Pool :=
                          Some {| api.Uuid := "pool-1";
                                  api.LastOperation := None |} |})
              {| api.Uuid := "pool-1"; api.LastOperation := None |} eq_refl)
    as (suffix & H & _).
  exists suffix. exact H.
Defined.

End moreWitnesses.
